(** * India Union Budget Explorer ([app.py]): data pipeline and its properties

    A shallow embedding of the computational core of [app.py]:
    the loader ([load_data]), the focus filter, the per-year totals and
    shares, the CAGR block of the "Deep Dive" page and the balance check of
    the "What If?" page.

    Numbers.  The program computes with IEEE doubles (pandas / numpy
    [float64]); pandas uses NaN as its "missing value".  Two arithmetics
    appear below.

    - [float64]: a real number, an infinity or NaN, with exact real
      arithmetic on the finite values and the IEEE rules for the special
      values.  Rounding, overflow, underflow and the sign of zero are not
      in it.  The frame and the pages are embedded over it; it serves what
      does not turn on a rounding: the shape of the frame, missing values,
      raised errors, and the formulas with their values in exact
      arithmetic.

    - [binary64]: IEEE 754 double precision itself, as the Standard
      Library specifies it ([SpecFloat]): round to nearest even, signed
      zeros, subnormals, overflow to an infinity.  The lines whose meaning
      turns on a rounding -- the reading of a cell, the shares of a year,
      the balance test -- are written once over an [arithmetic] and read
      in both. *)

From Stdlib Require Import Reals Lra Lia List String Ascii ZArith Bool.
From Stdlib Require Import Sorted Permutation SpecFloat.
Import ListNotations.

Open Scope string_scope.
Open Scope R_scope.

(* ================================================================== *)
(** * The number model *)
(* ================================================================== *)

Inductive float64 : Type :=
| Fin (r : R)          (* a finite value *)
| Inf (neg : bool)     (* +inf ([neg = false]) or -inf ([neg = true]) *)
| NaN.                 (* not-a-number, pandas' missing value *)

(** The sign of a real, decided with the trichotomy of [R]. *)
Inductive sign : Type := Neg | Zero | Pos.

Definition Rsign (r : R) : sign :=
  match total_order_T r 0 with
  | inleft (left _) => Neg
  | inleft (right _) => Zero
  | inright _ => Pos
  end.

Definition Rltb (x y : R) : bool := if Rlt_dec x y then true else false.

Definition isna (x : float64) : bool :=
  match x with NaN => true | _ => false end.

Definition notna (x : float64) : bool := negb (isna x).

Definition isfinite (x : float64) : bool :=
  match x with Fin _ => true | _ => false end.

Definition fneg (x : float64) : float64 :=
  match x with
  | Fin r => Fin (- r)
  | Inf s => Inf (negb s)
  | NaN => NaN
  end.

Definition fadd (x y : float64) : float64 :=
  match x, y with
  | NaN, _ | _, NaN => NaN
  | Fin a, Fin b => Fin (a + b)
  | Fin _, Inf s | Inf s, Fin _ => Inf s
  | Inf s, Inf t => if Bool.eqb s t then Inf s else NaN
  end.

Definition fsub (x y : float64) : float64 := fadd x (fneg y).

Definition fmul (x y : float64) : float64 :=
  match x, y with
  | NaN, _ | _, NaN => NaN
  | Fin a, Fin b => Fin (a * b)
  | Fin a, Inf s | Inf s, Fin a =>
      match Rsign a with
      | Pos => Inf s
      | Neg => Inf (negb s)
      | Zero => NaN
      end
  | Inf s, Inf t => Inf (xorb s t)
  end.

(** numpy division: dividing by zero never raises; it yields an infinity
    (non-zero numerator) or NaN (zero numerator). *)
Definition fdiv (x y : float64) : float64 :=
  match x, y with
  | NaN, _ | _, NaN => NaN
  | Fin a, Fin b =>
      match Rsign b with
      | Zero =>
          match Rsign a with
          | Pos => Inf false
          | Neg => Inf true
          | Zero => NaN
          end
      | _ => Fin (a / b)
      end
  | Fin _, Inf _ => Fin 0
  | Inf s, Fin b =>
      match Rsign b with
      | Neg => Inf (negb s)
      | _ => Inf s
      end
  | Inf _, Inf _ => NaN
  end.

Definition fabs (x : float64) : float64 :=
  match x with
  | Fin r => Fin (Rabs r)
  | Inf _ => Inf false
  | NaN => NaN
  end.

(** [x < y] on floats: false as soon as one side is NaN. *)
Definition fltb (x y : float64) : bool :=
  match x, y with
  | NaN, _ | _, NaN => false
  | Fin a, Fin b => Rltb a b
  | Fin _, Inf s => negb s
  | Inf s, Fin _ => s
  | Inf s, Inf t => s && negb t
  end.

(** [x ** (1 / n)] for an integer [n >= 1], the only exponents the program
    forms.  For [n = 1] the exponent is [1.0] and the power is the base; for
    [n >= 2] the exponent is a non-integer in (0, 1), so a negative base
    gives NaN and both infinities give [+inf] (C [pow]). *)
Definition pow_recip (x : float64) (n : positive) : float64 :=
  match n with
  | xH => x
  | _ =>
      match x with
      | NaN => NaN
      | Inf _ => Inf false
      | Fin r =>
          match Rsign r with
          | Pos => Fin (Rpower r (/ IZR (Zpos n)))
          | Zero => Fin 0
          | Neg => NaN
          end
      end
  end.

(** Python's builtin [sum]: a left fold of [+] starting from [0]. *)
Definition py_sum (l : list float64) : float64 := fold_left fadd l (Fin 0).

(** pandas' [Series.sum()] (skipna=True): NaN entries are left out, and the
    sum of no entries is [0]. *)
Definition nansum (l : list float64) : float64 := py_sum (filter notna l).


(* ================================================================== *)
(** * Python exceptions *)
(* ================================================================== *)

Inductive exn : Type := IndexError | ZeroDivisionError.

Inductive result (A : Type) : Type :=
| Ok (a : A)
| Raise (e : exn).
Arguments Ok {A} a.
Arguments Raise {A} e.

Definition bind {A B} (m : result A) (k : A -> result B) : result B :=
  match m with
  | Ok a => k a
  | Raise e => Raise e
  end.

Notation "x <- m ;; k" := (bind m (fun x => k))
  (at level 61, m at next level, right associativity).

(** [seq.iloc[0]] and [seq.iloc[-1]]: both raise [IndexError] on an empty
    selection. *)
Definition iloc_first {A} (l : list A) : result A :=
  match l with
  | [] => Raise IndexError
  | x :: _ => Ok x
  end.

Definition iloc_last {A} (l : list A) : result A :=
  match rev l with
  | [] => Raise IndexError
  | x :: _ => Ok x
  end.

(* ================================================================== *)
(** * Strings *)
(* ================================================================== *)

Fixpoint drop (n : nat) (s : string) : string :=
  match n, s with
  | O, _ => s
  | S _, EmptyString => EmptyString
  | S k, String _ s' => drop k s'
  end.

(** [s[:n]]: the first [n] characters, or all of [s] when it is shorter. *)
Fixpoint take (n : nat) (s : string) : string :=
  match n, s with
  | O, _ => EmptyString
  | S _, EmptyString => EmptyString
  | S k, String c s' => String c (take k s')
  end.

(** [occurs pat s]: [pat] occurs somewhere in [s]. *)
Fixpoint occurs (pat s : string) : bool :=
  prefix pat s ||
  match s with
  | EmptyString => false
  | String _ s' => occurs pat s'
  end.

(** [s.replace(old, new)] for a non-empty [old]: scan left to right; where
    [old] starts, emit [new] and skip [old]; elsewhere copy the character.
    [skip] counts the characters of a matched [old] still to pass over. *)
Fixpoint replace_from (old new : string) (skip : nat) (s : string) : string :=
  match s with
  | EmptyString => EmptyString
  | String c s' =>
      match skip with
      | S k => replace_from old new k s'
      | O =>
          if prefix old s
          then new ++ replace_from old new (length old - 1) s'
          else String c (replace_from old new 0 s')
      end
  end.

Definition str_replace (old new s : string) : string :=
  replace_from old new 0 s.

(** pandas' [Series.replace(dict)] on one value: a value equal to a key is
    replaced by the key's entry, any other value is kept. *)
Fixpoint series_replace (table : list (string * string)) (s : string) : string :=
  match table with
  | [] => s
  | (k, v) :: rest => if String.eqb k s then v else series_replace rest s
  end.

(* ================================================================== *)
(** * Reading numbers from text: [pd.to_numeric(..., errors='coerce')] *)
(* ================================================================== *)

(** The reader of numbers is pandas library code.  Its behaviour on text
    cells is embedded for decimal literals and for the spellings of
    infinity; any other text is no number. *)

Definition is_space (c : ascii) : bool :=
  let n := nat_of_ascii c in
  (Nat.eqb n 32 || (Nat.leb 9 n && Nat.leb n 13))%bool.

Definition digit_of (c : ascii) : option Z :=
  let n := nat_of_ascii c in
  if (Nat.leb 48 n && Nat.leb n 57)%bool then Some (Z.of_nat (n - 48)) else None.

Fixpoint lstrip (s : string) : string :=
  match s with
  | String c s' => if is_space c then lstrip s' else s
  | EmptyString => EmptyString
  end.

(** Drops trailing blanks: a blank is kept only when something that is not
    a blank follows it. *)
Fixpoint rstrip (s : string) : string :=
  match s with
  | EmptyString => EmptyString
  | String c s' =>
      match rstrip s' with
      | EmptyString => if is_space c then EmptyString else String c EmptyString
      | r => String c r
      end
  end.

Definition read_sign (s : string) : bool * string :=
  match s with
  | String "-" s' => (true, s')
  | String "+" s' => (false, s')
  | _ => (false, s)
  end.

(** Reads the leading digits of [s] on top of the value [acc]; returns the
    value, the number of digits read and the unread rest. *)
Fixpoint read_digits (s : string) (acc : Z) (count : nat) : Z * nat * string :=
  match s with
  | EmptyString => (acc, count, s)
  | String c s' =>
      match digit_of c with
      | Some d => read_digits s' (10 * acc + d)%Z (S count)
      | None => (acc, count, s)
      end
  end.

(** The optional exponent part: [e] or [E], an optional sign and at least
    one digit.  [None] is a syntax error. *)
Definition read_exponent (s : string) : option (Z * string) :=
  match s with
  | String c s' =>
      if (Ascii.eqb c "e" || Ascii.eqb c "E")%bool then
        let '(neg, s1) := read_sign s' in
        let '(v, n, s2) := read_digits s1 0%Z 0%nat in
        match n with
        | O => None
        | S _ => Some (if neg then (- v)%Z else v, s2)
        end
      else Some (0%Z, s)
  | EmptyString => Some (0%Z, s)
  end.

(** A decimal literal [[sign] digits [. digits] [e [sign] digits]] between
    optional blanks, as a signed mantissa and a power of ten. *)
Definition parse_decimal (s : string) : option (Z * Z) :=
  let '(neg, s1) := read_sign (rstrip (lstrip s)) in
  let '(ip, ni, s2) := read_digits s1 0%Z 0%nat in
  let '(m, nf, s3) :=
    match s2 with
    | String "." s2' => read_digits s2' ip 0%nat
    | _ => (ip, 0%nat, s2)
    end in
  match (ni + nf)%nat with
  | O => None
  | S _ =>
      match read_exponent s3 with
      | Some (e, EmptyString) =>
          Some (if neg then (- m)%Z else m, (e - Z.of_nat nf)%Z)
      | _ => None
      end
  end.

Definition lower (c : ascii) : ascii :=
  let n := nat_of_ascii c in
  if (Nat.leb 65 n && Nat.leb n 90)%bool then ascii_of_nat (n + 32) else c.

Fixpoint lower_string (s : string) : string :=
  match s with
  | EmptyString => EmptyString
  | String c s' => String (lower c) (lower_string s')
  end.

(** The spellings of infinity: [inf] or [infinity], in any letter case,
    with an optional sign. *)
Definition parse_infinity (s : string) : option bool :=
  let '(neg, s1) := read_sign s in
  let l := lower_string s1 in
  if (String.eqb l "inf" || String.eqb l "infinity")%bool then Some neg else None.

(** The value of a text as a float, [None] when the text is no number.
    The value of a decimal literal is taken exactly here (no rounding, no
    overflow); [parse_float_in] below reads it in double precision as well.
    The spellings of NaN are no number here, which gives the same value
    under [errors='coerce']. *)
Definition parse_float (s : string) : option float64 :=
  match parse_decimal s with
  | Some (m, e) => Some (Fin (IZR m * powerRZ 10 e))
  | None =>
      match parse_infinity s with
      | Some neg => Some (Inf neg)
      | None => None
      end
  end.

(** [pd.to_numeric(s, errors='coerce')] on one text cell: what does not
    parse becomes NaN. *)
Definition to_numeric_coerce (s : string) : float64 :=
  match parse_float s with
  | Some x => x
  | None => NaN
  end.

(** One cell of the loop over the numeric columns:
    [pd.to_numeric(df[col].astype(str).str.replace(',', ''), errors='coerce')]. *)
Definition clean_numeric (cell : string) : float64 :=
  to_numeric_coerce (str_replace "," "" cell).

(* ================================================================== *)
(** * Arithmetics *)
(* ================================================================== *)

(** What the program asks of its numbers. *)
Record arithmetic (F : Type) : Type := {
  num_of_Z : Z -> F;             (* an integer literal *)
  num_decimal : Z -> Z -> F;     (* the number written [m] times ten to the [e] *)
  num_inf : bool -> F;
  num_nan : F;
  num_isna : F -> bool;
  num_add : F -> F -> F;
  num_sub : F -> F -> F;
  num_mul : F -> F -> F;
  num_div : F -> F -> F;
  num_abs : F -> F;
  num_ltb : F -> F -> bool
}.
Arguments num_of_Z {F} _ _.
Arguments num_decimal {F} _ _ _.
Arguments num_inf {F} _ _.
Arguments num_nan {F} _.
Arguments num_isna {F} _ _.
Arguments num_add {F} _ _ _.
Arguments num_sub {F} _ _ _.
Arguments num_mul {F} _ _ _.
Arguments num_div {F} _ _ _.
Arguments num_abs {F} _ _.
Arguments num_ltb {F} _ _ _.

(** Exact arithmetic. *)
Definition exact : arithmetic float64 :=
  {| num_of_Z := fun z => Fin (IZR z);
     num_decimal := fun m e => Fin (IZR m * powerRZ 10 e);
     num_inf := Inf;
     num_nan := NaN;
     num_isna := isna;
     num_add := fadd;
     num_sub := fsub;
     num_mul := fmul;
     num_div := fdiv;
     num_abs := fabs;
     num_ltb := fltb |}.









Section OverAnArithmetic.

Context {F : Type} (A : arithmetic F).

(** Python's [sum] and pandas' NaN-skipping sum, as [py_sum] and [nansum]
    above: the entries are added one after the other, from 0. *)
Definition sum_in (l : list F) : F := fold_left (num_add A) l (num_of_Z A 0).

Definition nansum_in (l : list F) : F :=
  sum_in (filter (fun x => negb (num_isna A x)) l).

(** The reading of a numeric cell, as [parse_float], [to_numeric_coerce]
    and [clean_numeric] above. *)
Definition parse_float_in (s : string) : option F :=
  match parse_decimal s with
  | Some (m, e) => Some (num_decimal A m e)
  | None =>
      match parse_infinity s with
      | Some neg => Some (num_inf A neg)
      | None => None
      end
  end.

Definition clean_numeric_in (cell : string) : F :=
  match parse_float_in (str_replace "," "" cell) with
  | Some x => x
  | None => num_nan A
  end.

End OverAnArithmetic.

(* ================================================================== *)
(** * [load_data] *)
(* ================================================================== *)

(** A row of [budget.csv].  The numeric cells are given as their text
    ([astype(str)]: an empty cell is the text "nan").  The loader does not
    convert the [Year] column: a cell of it is a text, or it is empty
    ([None]), and an empty cell stays pandas' missing value through
    [.str[:9]].  An empty [Ministry Name] cell likewise stays missing
    through the replace chain and then fails the focus test, as every text
    outside the focus set does; it is not told apart from such a text. *)
Record raw_row : Type := {
  raw_Ministry_Name : string;
  raw_Year : option string;
  raw_Revenue_Plan : string;
  raw_Capital_Plan : string;
  raw_Total_Plan : string;
  raw_Revenue_Non_Plan : string;
  raw_Capital_Non_Plan : string;
  raw_Total_Non_Plan : string;
  raw_Total_Plan_and_Non_Plan : string
}.

(** A row of the frame [load_data] returns. *)
Record row : Type := {
  Ministry_Name : string;
  Year : option string;
  Revenue_Plan : float64;
  Capital_Plan : float64;
  Total_Plan : float64;
  Revenue_Non_Plan : float64;
  Capital_Non_Plan : float64;
  Total_Non_Plan : float64;
  Total_Plan_and_Non_Plan : float64;
  Ministry : string;
  Total : float64
}.

Definition ministry_aliases : list (string * string) :=
  [ ("MINISTRY OF AGRICULTURE", "Agriculture & Farmers' Welfare");
    ("MINISTRY OF AGRICULTURE AND FARMERS WELFARE", "Agriculture & Farmers' Welfare");
    ("MINISTRY OF AGRICULTURE AND FARMERS' WELFARE", "Agriculture & Farmers' Welfare");
    ("MINISTRY OF DEFENCE", "Defence");
    ("MINISTRY OF FINANCE", "Finance");
    ("MINISTRY OF HOME AFFAIRS", "Home Affairs");
    ("MINISTRY OF HEALTH AND FAMILY WELFARE", "Health & Family Welfare") ].

Definition ministry_prefix : string := "MINISTRY OF ".

(** [df["Ministry Name"].replace({...}).str.replace("MINISTRY OF ", "", regex=False)] *)
Definition canonicalize (label : string) : string :=
  str_replace ministry_prefix "" (series_replace ministry_aliases label).

(** [a.fillna(b)] on one row: [b] where [a] is NaN. *)
Definition fillna (a b : float64) : float64 :=
  if isna a then b else a.

(** [df["Year"].str[:9]] *)
Definition normalize_year (y : string) : string := take 9 y.

Definition load_row (r : raw_row) : row :=
  let total_plan := clean_numeric (raw_Total_Plan r) in
  let total_both := clean_numeric (raw_Total_Plan_and_Non_Plan r) in
  {| Ministry_Name := raw_Ministry_Name r;
     Year := option_map normalize_year (raw_Year r);
     Revenue_Plan := clean_numeric (raw_Revenue_Plan r);
     Capital_Plan := clean_numeric (raw_Capital_Plan r);
     Total_Plan := total_plan;
     Revenue_Non_Plan := clean_numeric (raw_Revenue_Non_Plan r);
     Capital_Non_Plan := clean_numeric (raw_Capital_Non_Plan r);
     Total_Non_Plan := clean_numeric (raw_Total_Non_Plan r);
     Total_Plan_and_Non_Plan := total_both;
     Ministry := canonicalize (raw_Ministry_Name r);
     Total := fillna total_both total_plan |}.

Definition load_data (csv : list raw_row) : list row := map load_row csv.

(* ================================================================== *)
(** * Focus filter, totals per year, shares *)
(* ================================================================== *)

Definition focus_ministries : list string :=
  [ "Defence"; "Finance"; "Home Affairs";
    "Agriculture & Farmers' Welfare"; "Health & Family Welfare" ].

Definition isin (l : list string) (s : string) : bool :=
  existsb (String.eqb s) l.

(** [df[df["Ministry"].isin(focus_ministries)]] *)
Definition focus_filter (df : list row) : list row :=
  filter (fun r => isin focus_ministries (Ministry r)) df.

(** The group keys of [groupby("Year")]: the distinct years, sorted. *)
Fixpoint insert_sorted (k : string) (l : list string) : list string :=
  match l with
  | [] => [k]
  | x :: l' => if String.leb k x then k :: l else x :: insert_sorted k l'
  end.

Fixpoint sort_keys (l : list string) : list string :=
  match l with
  | [] => []
  | x :: l' => insert_sorted x (sort_keys l')
  end.

Fixpoint unique (l : list string) : list string :=
  match l with
  | [] => []
  | x :: l' => x :: filter (fun y => negb (String.eqb x y)) (unique l')
  end.

(** [cell == y] on a cell of the [Year] column: a missing cell equals no
    text. *)
Definition year_eqb (cell : option string) (y : string) : bool :=
  match cell with
  | Some k => String.eqb k y
  | None => false
  end.

Definition in_year (y : string) (r : row) : bool := year_eqb (Year r) y.

(** The years of the rows that have one: [groupby] leaves the rows with a
    missing key out of every group. *)
Definition years (df : list row) : list string :=
  flat_map (fun r => match Year r with Some y => [y] | None => [] end) df.

(** The sum of one group: the NaN-skipping sum of the [Total]s of the rows
    of year [y]. *)
Definition year_total (df : list row) (y : string) : float64 :=
  nansum (map Total (filter (in_year y) df)).

(** [df.groupby("Year")["Total"].sum().reset_index()]: one line per year,
    the year and the sum of its group. *)
Definition total_by_year (df : list row) : list (string * float64) :=
  map (fun y => (y, year_total df y)) (sort_keys (unique (years df))).

Fixpoint lookup (y : string) (t : list (string * float64)) : option float64 :=
  match t with
  | [] => None
  | (k, v) :: t' => if String.eqb k y then Some v else lookup y t'
  end.


(** A row after the merge, with the two derived columns. *)
Record mrow : Type := {
  base : row;
  Total_total : float64;
  Share : float64
}.

(** [df.merge(total_by_year, on="Year", suffixes=('', '_total'))] followed
    by [df["Share (%)"] = (df["Total"] / df["Total_total"]) * 100].  The
    merge is an inner join that keeps the order of the left rows; the keys
    of the right frame are distinct, and none of them is missing, so a left
    row without a year finds no partner and is dropped. *)
Definition merge_share (df : list row) (t : list (string * float64)) : list mrow :=
  flat_map (fun r =>
    match Year r with
    | Some y =>
        match lookup y t with
        | Some tot =>
            [ {| base := r; Total_total := tot;
                 Share := fmul (fdiv (Total r) tot) (Fin 100) |} ]
        | None => []
        end
    | None => []
    end) df.

(** The module-level frame [df] the pages work on. *)
Definition prepare (csv : list raw_row) : list mrow :=
  let df := focus_filter (load_data csv) in
  merge_share df (total_by_year df).

Definition year_is (y : string) (r : mrow) : bool := year_eqb (Year (base r)) y.
Definition ministry_is (m : string) (r : mrow) : bool := String.eqb (Ministry (base r)) m.

(* ================================================================== *)
(** * "Deep Dive": CAGR *)
(* ================================================================== *)

(** The CAGR block, [data] being [df[df["Ministry"] == ministry]]:
<<
    first = data.iloc[0]["Total"]
    last = data.iloc[-1]["Total"]
    years = len(data) - 1
    cagr = ((last / first) ** (1/years) - 1) * 100
>>
    [last / first] is a numpy division and never raises; [1/years] is a
    division of Python integers and raises on [years = 0]; [years] is never
    negative here, since [iloc[0]] has raised on an empty selection. *)
Definition cagr_of (data : list mrow) : result float64 :=
  first <- iloc_first data ;;
  last <- iloc_last data ;;
  let years := (Z.of_nat (List.length data) - 1)%Z in
  let ratio := fdiv (Total (base last)) (Total (base first)) in
  match years with
  | Zpos n => Ok (fmul (fsub (pow_recip ratio n) (Fin 1)) (Fin 100))
  | _ => Raise ZeroDivisionError
  end.

Definition deep_dive_cagr (df : list mrow) (ministry : string) : result float64 :=
  cagr_of (filter (ministry_is ministry) df).

(* ================================================================== *)
(** * "What If?": the balance check *)
(* ================================================================== *)

Definition latest_year : string := "2024-2025".

Definition lakh_crore : R := 10000000.

(** [df[df["Year"] == "2024-2025"]["Total_total"].iloc[0] / 1e7] *)
Definition total_2024 (df : list mrow) : result float64 :=
  r <- iloc_first (filter (year_is latest_year) df) ;;
  Ok (fdiv (Total_total r) (Fin lakh_crore)).

(** The slider's start value of a ministry:
    [df[(df["Year"] == "2024-2025") & (df["Ministry"] == m)]["Total"].iloc[0] / 1e7] *)
Definition current_allocation (df : list mrow) (m : string) : result float64 :=
  r <- iloc_first (filter (fun r => year_is latest_year r && ministry_is m r)%bool df) ;;
  Ok (fdiv (Total (base r)) (Fin lakh_crore)).

(** The loop over [focus_ministries]: [slider m] is the value the user set
    on the slider of [m].  The slider is a widget of the user interface; of
    [st.slider(m, 0.0, total_2024, current, 0.5)] only the returned value
    and the evaluation of [current] take part here. *)
Fixpoint collect_allocations (df : list mrow) (slider : string -> float64)
    (ms : list string) : result (list (string * float64)) :=
  match ms with
  | [] => Ok []
  | m :: ms' =>
      _ <- current_allocation df m ;;
      rest <- collect_allocations df slider ms' ;;
      Ok ((m, slider m) :: rest)
  end.

(** The year total and the slider values the check is run on. *)
Definition what_if_inputs (df : list mrow) (slider : string -> float64) :
    result (float64 * list (string * float64)) :=
  total <- total_2024 df ;;
  allocations <- collect_allocations df slider focus_ministries ;;
  Ok (total, allocations).

(** What the page reports after the sliders. *)
Record verdict (F : Type) : Type := {
  allocated : F;           (* total_allocated *)
  remaining : F;           (* total_2024 - total_allocated *)
  balanced : bool          (* abs(total_allocated - total_2024) < 5 *)
}.
Arguments allocated {F} _.
Arguments remaining {F} _.
Arguments balanced {F} _.

(** The check:
<<
    total_allocated = sum(allocations.values())
    remaining = total_2024 - total_allocated
    if abs(total_allocated - total_2024) < 5: ...
>>
    [verdict_in] is what follows the sum. *)
Definition verdict_in {F : Type} (A : arithmetic F) (total total_allocated : F) : verdict F :=
  {| allocated := total_allocated;
     remaining := num_sub A total total_allocated;
     balanced := num_ltb A (num_abs A (num_sub A total_allocated total)) (num_of_Z A 5) |}.

Definition check_balance_in {F : Type} (A : arithmetic F)
    (total : F) (allocations : list (string * F)) : verdict F :=
  verdict_in A total (sum_in A (map snd allocations)).

Definition check_balance (total : float64) (allocations : list (string * float64)) :
    verdict float64 :=
  check_balance_in exact total allocations.

Definition what_if (df : list mrow) (slider : string -> float64) : result (verdict float64) :=
  x <- what_if_inputs df slider ;;
  Ok (check_balance (fst x) (snd x)).

(* ================================================================== *)
(** * Vocabulary of the statements *)
(* ================================================================== *)

(** A text without its commas. *)
Fixpoint remove_commas (s : string) : string :=
  match s with
  | EmptyString => EmptyString
  | String c s' => if Ascii.eqb c "," then remove_commas s' else String c (remove_commas s')
  end.





(** Evaluation of the pipeline on given data, up to the real arithmetic. *)
Ltac run :=
  cbv -[IZR Rplus Rmult Rinv Rdiv Ropp Rminus powerRZ Rpower total_order_T
        Rlt_dec Rabs Rsign Rltb Rle Rlt Rge Rgt].


(* ================================================================== *)
(** * Sample data *)
(* ================================================================== *)

(** A line of the CSV file with the given ministry name, year and the two
    totals the loader reads; the other numeric cells are empty ("nan"
    after [astype(str)]). *)
Definition csv_line (name year total_plan total_both : string) : raw_row :=
  {| raw_Ministry_Name := name;
     raw_Year := Some year;
     raw_Revenue_Plan := "nan";
     raw_Capital_Plan := "nan";
     raw_Total_Plan := total_plan;
     raw_Revenue_Non_Plan := "nan";
     raw_Capital_Non_Plan := "nan";
     raw_Total_Non_Plan := "nan";
     raw_Total_Plan_and_Non_Plan := total_both |}.

(** The row has a year. *)
Definition has_year (r : row) : bool :=
  match Year r with
  | Some _ => true
  | None => false
  end.

(** The total of the year of a row. *)
Definition key_total (df : list row) (r : row) : float64 :=
  match Year r with
  | Some y => year_total df y
  | None => NaN
  end.

(** A row of the loaded frame with its two derived columns. *)
Definition with_share (df : list row) (r : row) : mrow :=
  {| base := r;
     Total_total := key_total df r;
     Share := fmul (fdiv (Total r) (key_total df r)) (Fin 100) |}.

(** The file of a year whose two focus ministries have no totals. *)
Definition csv_empty_year : list raw_row :=
  [ csv_line "MINISTRY OF DEFENCE" "2020-2021" "nan" "nan";
    csv_line "MINISTRY OF FINANCE" "2020-2021" "nan" "nan" ].

(** The file of a year with three ministries, two of them in the focus set. *)
Definition csv_one_year : list raw_row :=
  [ csv_line "MINISTRY OF DEFENCE" "2020-2021 (RE)" "1,00" "nan";
    csv_line "MINISTRY OF FINANCE" "2020-2021" "7" "3,00";
    csv_line "MINISTRY OF RAILWAYS" "2020-2021" "7" "9,00" ].

(** One ministry over two years, without totals in the first. *)
Definition csv_missing_base : list raw_row :=
  [ csv_line "MINISTRY OF DEFENCE" "2014-2015" "nan" "nan";
    csv_line "MINISTRY OF DEFENCE" "2015-2016" "nan" "200" ].

(** One ministry over two years, with a total of zero in the first. *)
Definition csv_zero_base : list raw_row :=
  [ csv_line "MINISTRY OF DEFENCE" "2014-2015" "nan" "0";
    csv_line "MINISTRY OF DEFENCE" "2015-2016" "nan" "200" ].

(** One ministry with the two estimates of a single year, both 100. *)
Definition csv_two_estimates : list raw_row :=
  [ csv_line "MINISTRY OF DEFENCE" "2020-2021 (BE)" "nan" "100";
    csv_line "MINISTRY OF DEFENCE" "2020-2021 (RE)" "nan" "100" ].

(** One ministry over two years, the later year first in the file. *)
Definition csv_reversed : list raw_row :=
  [ csv_line "MINISTRY OF DEFENCE" "2015-2016" "nan" "200";
    csv_line "MINISTRY OF DEFENCE" "2014-2015" "nan" "100" ].

(** Three years, of which Defence has the first and the third. *)
Definition csv_gap : list raw_row :=
  [ csv_line "MINISTRY OF DEFENCE" "2014-2015" "nan" "100";
    csv_line "MINISTRY OF FINANCE" "2015-2016" "nan" "50";
    csv_line "MINISTRY OF DEFENCE" "2016-2017" "nan" "400" ].

(** A year whose two totals cancel. *)
Definition csv_cancel : list raw_row :=
  [ csv_line "MINISTRY OF DEFENCE" "2020-2021" "nan" "5";
    csv_line "MINISTRY OF FINANCE" "2020-2021" "nan" "-5" ].



(** A focus row without a year between two rows of 2020-2021. *)
Definition csv_no_year : list raw_row :=
  [ csv_line "MINISTRY OF DEFENCE" "2020-2021" "nan" "100";
    {| raw_Ministry_Name := "MINISTRY OF FINANCE";
       raw_Year := None;
       raw_Revenue_Plan := "nan";
       raw_Capital_Plan := "nan";
       raw_Total_Plan := "nan";
       raw_Revenue_Non_Plan := "nan";
       raw_Capital_Non_Plan := "nan";
       raw_Total_Non_Plan := "nan";
       raw_Total_Plan_and_Non_Plan := "300" |};
    csv_line "MINISTRY OF HOME AFFAIRS" "2020-2021" "nan" "300" ].

(** One ministry over the eleven years 2014-2015 to 2024-2025, from a total
    of 100 to a total of 941.48. *)
Definition csv_decade : list raw_row :=
  [ csv_line "MINISTRY OF DEFENCE" "2014-2015" "nan" "100";
    csv_line "MINISTRY OF DEFENCE" "2015-2016" "nan" "125";
    csv_line "MINISTRY OF DEFENCE" "2016-2017" "nan" "156";
    csv_line "MINISTRY OF DEFENCE" "2017-2018" "nan" "195";
    csv_line "MINISTRY OF DEFENCE" "2018-2019" "nan" "244";
    csv_line "MINISTRY OF DEFENCE" "2019-2020" "nan" "305";
    csv_line "MINISTRY OF DEFENCE" "2020-2021" "nan" "381";
    csv_line "MINISTRY OF DEFENCE" "2021-2022" "nan" "477";
    csv_line "MINISTRY OF DEFENCE" "2022-2023" "nan" "596";
    csv_line "MINISTRY OF DEFENCE" "2023-2024" "nan" "745";
    csv_line "MINISTRY OF DEFENCE" "2024-2025" "nan" "941.48" ].

(** The five focus ministries in 2024-2025, 4800 lakh crore together. *)
Definition csv_2024 : list raw_row :=
  [ csv_line "MINISTRY OF DEFENCE" "2024-2025" "nan" "6,00,00,00,000";
    csv_line "MINISTRY OF FINANCE" "2024-2025" "nan" "30,00,00,00,000";
    csv_line "MINISTRY OF HOME AFFAIRS" "2024-2025" "nan" "6,00,00,00,000";
    csv_line "MINISTRY OF AGRICULTURE" "2024-2025" "nan" "3,00,00,00,000";
    csv_line "MINISTRY OF HEALTH AND FAMILY WELFARE" "2024-2025" "nan" "3,00,00,00,000" ].



(* ================================================================== *)
(** * Further code of the pages *)
(* ================================================================== *)

(** The years offered in the sidebar:
    [sorted(df["Year"].unique(), reverse=True)].  The values are distinct,
    so sorting them in descending order is reversing the ascending sort.
    The frame is the merged one, in which no row lacks a year. *)
Definition year_options (df : list mrow) : list string :=
  rev (sort_keys (unique (years (map base df)))).

(** The four numbers behind the cards of the "Overview" page:
<<
    latest = df[df["Year"] == "2024-2025"]
    defence = latest[latest["Ministry"] == "Defence"]["Total"].iloc[0]
    finance = latest[latest["Ministry"] == "Finance"]["Total"].iloc[0]
    agri_share_2014 = df[(df["Year"] == "2014-2015") & (...)]["Share (%)"].iloc[0]
    agri_share_2024 = df[(df["Year"] == "2024-2025") & (...)]["Share (%)"].iloc[0]
>> *)
Record overview : Type := {
  defence : float64;
  finance : float64;
  agri_share_2014 : float64;
  agri_share_2024 : float64
}.

Definition agriculture : string := "Agriculture & Farmers' Welfare".

Definition overview_metrics (df : list mrow) : result overview :=
  let latest := filter (year_is "2024-2025") df in
  d <- iloc_first (filter (ministry_is "Defence") latest) ;;
  f <- iloc_first (filter (ministry_is "Finance") latest) ;;
  a14 <- iloc_first (filter (fun r => year_is "2014-2015" r && ministry_is agriculture r)%bool df) ;;
  a24 <- iloc_first (filter (fun r => year_is "2024-2025" r && ministry_is agriculture r)%bool df) ;;
  Ok {| defence := Total (base d);
        finance := Total (base f);
        agri_share_2014 := Share a14;
        agri_share_2024 := Share a24 |}.






(** The frame has a row of year [y] and ministry [m]. *)
Definition has_row (df : list mrow) (y m : string) : Prop :=
  exists r, In r df /\ Year (base r) = Some y /\ Ministry (base r) = m.



(* ================================================================== *)
(** * Properties of the string operations *)
(* ================================================================== *)

Section StringFacts.

Lemma drop_empty (k : nat) : drop k "" = "".
Proof. destruct k; reflexivity. Qed.

Lemma drop_app (k : nat) (a r : string) :
  (k <= length a)%nat -> drop k (a ++ r) = drop k a ++ r.
Proof.
  revert a. induction k as [|k IH]; intros [|c a] Hk; simpl in *; try reflexivity; try lia.
  apply IH. lia.
Qed.

Lemma length_drop (k : nat) (s : string) : length (drop k s) = (length s - k)%nat.
Proof.
  revert s. induction k as [|k IH]; intros [|c s]; simpl; auto.
Qed.

Lemma prefix_empty (s : string) : prefix "" s = true.
Proof. destruct s; reflexivity. Qed.

Lemma prefix_length (p s : string) : prefix p s = true -> (length p <= length s)%nat.
Proof.
  revert s. induction p as [|x p IH]; intros s H; [simpl; lia|].
  destruct s as [|y s]; simpl in H; [discriminate|].
  destruct (ascii_dec x y); [apply IH in H; simpl; lia | discriminate].
Qed.

Lemma prefix_app_l (p a r : string) : prefix p a = true -> prefix p (a ++ r) = true.
Proof.
  revert a. induction p as [|x p IH]; intros a H; [apply prefix_empty|].
  destruct a as [|y a]; simpl in H |- *; [discriminate|].
  destruct (ascii_dec x y); [auto | discriminate].
Qed.

(** A prefix of [a ++ r] either lies within [a] or runs over into [r]. *)
Lemma prefix_app_cases (p a r : string) :
  prefix p (a ++ r) = true ->
  prefix p a = true \/
  ((length a < length p)%nat /\ prefix (drop (length a) p) r = true).
Proof.
  revert a. induction p as [|x p IH]; intros a H.
  - left. apply prefix_empty.
  - destruct a as [|y a].
    + right. simpl. split; [lia | exact H].
    + simpl in H |- *. destruct (ascii_dec x y) as [_|]; [|discriminate].
      destruct (IH a H) as [Hl | [Hlen Hr]]; [left; exact Hl | right; split; [lia | exact Hr]].
Qed.

Lemma occurs_prefix (pat s : string) : prefix pat s = true -> occurs pat s = true.
Proof. intros H. destruct s; cbn [occurs]; rewrite H; reflexivity. Qed.

Lemma replace_from_skip (old new : string) (k : nat) (s : string) :
  replace_from old new k s = str_replace old new (drop k s).
Proof.
  unfold str_replace. revert k. induction s as [|c s IH]; intros k.
  - rewrite drop_empty. reflexivity.
  - destruct k as [|k]; [reflexivity | simpl; apply IH].
Qed.

Lemma str_replace_match (old new : string) (c : ascii) (s : string) :
  prefix old (String c s) = true ->
  str_replace old new (String c s) = new ++ str_replace old new (drop (length old - 1) s).
Proof.
  intros H. unfold str_replace at 1. cbn [replace_from]. rewrite H.
  rewrite replace_from_skip. reflexivity.
Qed.

Lemma str_replace_copy (old new : string) (c : ascii) (s : string) :
  prefix old (String c s) = false ->
  str_replace old new (String c s) = String c (str_replace old new s).
Proof.
  intros H. unfold str_replace. cbn [replace_from]. rewrite H. reflexivity.
Qed.

(** Where [old] does not occur the replacement changes nothing. *)
Lemma str_replace_absent (old new s : string) :
  occurs old s = false -> str_replace old new s = s.
Proof.
  induction s as [|c s IH]; intros H; [reflexivity|].
  cbn [occurs] in H. apply orb_false_iff in H as [Hp Ho].
  rewrite str_replace_copy by exact Hp. rewrite IH by exact Ho. reflexivity.
Qed.

End StringFacts.

(* ================================================================== *)
(** * The name canonicalizer *)
(* ================================================================== *)

Section Canonicalizer.

Let strip := str_replace ministry_prefix "".

(** No proper suffix of the prefix text starts the prefix text again. *)
Lemma prefix_overrun (k : nat) (r : string) :
  (1 <= k < 12)%nat ->
  prefix (drop k ministry_prefix) (ministry_prefix ++ r) = false.
Proof.
  intros [Hlo Hhi].
  do 12 (destruct k as [|k]; [first [lia | reflexivity]|]). lia.
Qed.

Lemma no_straddle (c : ascii) (a b : string) :
  prefix ministry_prefix (String c a) = false ->
  prefix ministry_prefix (String c a ++ ministry_prefix ++ b) = false.
Proof.
  intros H.
  destruct (prefix ministry_prefix (String c a ++ ministry_prefix ++ b)) eqn:E; [|reflexivity].
  apply prefix_app_cases in E as [E | [Hlen E]]; [congruence|].
  rewrite prefix_overrun in E; [discriminate|].
  simpl in Hlen |- *. lia.
Qed.

Lemma strip_prefix_text (b : string) : strip (ministry_prefix ++ b) = strip b.
Proof.
  unfold strip. change (ministry_prefix ++ b) with (String "M" ("INISTRY OF " ++ b)).
  rewrite str_replace_match
    by (apply (prefix_app_l ministry_prefix ministry_prefix b); reflexivity).
  reflexivity.
Qed.

Lemma strip_app_bounded (n : nat) :
  forall a b, (length a <= n)%nat ->
    strip (a ++ ministry_prefix ++ b) = strip a ++ strip b.
Proof.
  induction n as [|n IH]; intros a b Hn.
  - destruct a; [apply strip_prefix_text | simpl in Hn; lia].
  - destruct a as [|c a]; [apply strip_prefix_text|].
    destruct (prefix ministry_prefix (String c a)) eqn:E.
    + pose proof (prefix_length _ _ E) as Hlen. simpl in Hlen.
      unfold strip.
      change (String c a ++ ministry_prefix ++ b) with (String c (a ++ ministry_prefix ++ b)).
      rewrite (str_replace_match _ _ c (a ++ ministry_prefix ++ b))
        by (apply (prefix_app_l _ (String c a)); exact E).
      rewrite (str_replace_match _ _ c a) by exact E.
      rewrite drop_app by (simpl; lia).
      apply IH. rewrite length_drop. simpl in Hn |- *. lia.
    + unfold strip.
      change (String c a ++ ministry_prefix ++ b) with (String c (a ++ ministry_prefix ++ b)).
      rewrite (str_replace_copy _ _ c (a ++ ministry_prefix ++ b))
        by (apply (no_straddle c a b); exact E).
      rewrite (str_replace_copy _ _ c a) by exact E.
      simpl. f_equal. apply IH. simpl in Hn. lia.
Qed.

(** Every key of the alias table starts with the prefix text. *)
Lemma alias_keys_prefixed :
  forallb (fun kv => prefix ministry_prefix (fst kv)) ministry_aliases = true.
Proof. reflexivity. Qed.

Lemma series_replace_miss (table : list (string * string)) (s : string) :
  forallb (fun kv => prefix ministry_prefix (fst kv)) table = true ->
  prefix ministry_prefix s = false ->
  series_replace table s = s.
Proof.
  induction table as [|[k v] t IH]; intros Hk Hs; [reflexivity|].
  simpl in Hk. apply andb_true_iff in Hk as [Hk Ht].
  simpl. destruct (String.eqb k s) eqn:E; [|apply IH; assumption].
  apply String.eqb_eq in E. subst k. congruence.
Qed.

End Canonicalizer.

(** C8 (as amended): canonicalizing twice is canonicalizing once for every
    label whose canonical name holds no occurrence of the text
    "MINISTRY OF ". *)
Theorem canonicalize_idempotent (label : string) :
  occurs ministry_prefix (canonicalize label) = false ->
  canonicalize (canonicalize label) = canonicalize label.
Proof.
  intros H. set (c := canonicalize label) in *.
  unfold canonicalize at 1.
  assert (Hp : prefix ministry_prefix c = false).
  { destruct (prefix ministry_prefix c) eqn:E; [|reflexivity].
    apply occurs_prefix in E. congruence. }
  rewrite (series_replace_miss _ _ alias_keys_prefixed Hp).
  apply str_replace_absent. exact H.
Qed.

Lemma canonicalize_idempotent_witness :
  canonicalize (canonicalize "MINISTRY OF HOME AFFAIRS") = canonicalize "MINISTRY OF HOME AFFAIRS"
  /\ canonicalize "MINISTRY OF HOME AFFAIRS" = "Home Affairs".
Proof.
  split; [apply (canonicalize_idempotent "MINISTRY OF HOME AFFAIRS"); reflexivity | reflexivity].
Defined.

(** C8 as stated fails: removing one occurrence can join the text around
    it into an alias-table spelling. *)
Lemma canonicalize_not_idempotent :
  canonicalize "MINISTRY MINISTRY OF OF DEFENCE" = "MINISTRY OF DEFENCE" /\
  canonicalize (canonicalize "MINISTRY MINISTRY OF OF DEFENCE") = "Defence" /\
  ~ (forall x, canonicalize (canonicalize x) = canonicalize x).
Proof.
  split; [reflexivity|]. split; [reflexivity|].
  intros H. specialize (H "MINISTRY MINISTRY OF OF DEFENCE"). vm_compute in H. discriminate.
Qed.

(** C10 (as amended): the stripping step removes the text "MINISTRY OF "
    wherever it stands in a label, not only in front: a label
    [a ++ "MINISTRY OF " ++ b] is stripped to the stripped [a] followed by
    the stripped [b], and a text without an occurrence is left as it is. *)
Theorem strip_removes_every_occurrence :
  (forall a b : string,
     str_replace ministry_prefix "" (a ++ ministry_prefix ++ b)
     = str_replace ministry_prefix "" a ++ str_replace ministry_prefix "" b) /\
  (forall s : string,
     occurs ministry_prefix s = false -> str_replace ministry_prefix "" s = s) /\
  canonicalize "DEPARTMENT UNDER MINISTRY OF RAILWAYS" = "DEPARTMENT UNDER RAILWAYS".
Proof.
  split; [|split].
  - intros a b. apply (strip_app_bounded (length a)). lia.
  - intros s. apply str_replace_absent.
  - reflexivity.
Qed.

Lemma strip_removes_every_occurrence_witness :
  str_replace ministry_prefix "" ("BOARD, " ++ ministry_prefix ++ "RAILWAYS") = "BOARD, RAILWAYS".
Proof.
  destruct strip_removes_every_occurrence as (Happ & Habs & _).
  rewrite Happ. rewrite (Habs "BOARD, ") by reflexivity.
  rewrite (Habs "RAILWAYS") by reflexivity. reflexivity.
Defined.

(** C10 as stated fails: a label the alias table does not match can keep
    an occurrence of "MINISTRY OF " after the stripping step. *)
Lemma strip_can_leave_occurrence :
  series_replace ministry_aliases "MINISTRY MINISTRY OF OF RAILWAYS"
    = "MINISTRY MINISTRY OF OF RAILWAYS" /\
  canonicalize "MINISTRY MINISTRY OF OF RAILWAYS" = "MINISTRY OF RAILWAYS" /\
  occurs ministry_prefix (canonicalize "MINISTRY MINISTRY OF OF RAILWAYS") = true.
Proof. repeat split. Qed.

(** C9: the normalized period is the leading substring of at most nine
    characters of the raw text. *)
Theorem normalize_year_leading_9 (raw : string) :
  normalize_year raw = substring 0 9 raw /\
  raw = normalize_year raw ++ drop 9 raw /\
  length (normalize_year raw) = Nat.min 9 (length raw) /\
  normalize_year "2024-2025 (BE)" = "2024-2025".
Proof.
  unfold normalize_year.
  assert (Hsub : forall n s, take n s = substring 0 n s).
  { induction n as [|n IH]; intros [|c s]; simpl; try reflexivity. f_equal. apply IH. }
  assert (Happ : forall n s, s = take n s ++ drop n s).
  { induction n as [|n IH]; intros [|c s]; simpl; try reflexivity. f_equal. apply IH. }
  assert (Hlen : forall n s, length (take n s) = Nat.min n (length s)).
  { induction n as [|n IH]; intros [|c s]; simpl; try reflexivity. f_equal. apply IH. }
  repeat split; auto.
Qed.

(* ================================================================== *)
(** * Properties of the number model *)
(* ================================================================== *)

Section FloatFacts.

Lemma Rsign_pos (r : R) : 0 < r -> Rsign r = Pos.
Proof. intros H. unfold Rsign. destruct (total_order_T r 0) as [[?|?]|?]; [lra | lra | reflexivity]. Qed.

Lemma Rsign_neg (r : R) : r < 0 -> Rsign r = Neg.
Proof. intros H. unfold Rsign. destruct (total_order_T r 0) as [[?|?]|?]; [reflexivity | lra | lra]. Qed.

Lemma Rsign_zero (r : R) : r = 0 -> Rsign r = Zero.
Proof. intros H. unfold Rsign. destruct (total_order_T r 0) as [[?|?]|?]; [lra | reflexivity | lra]. Qed.

Lemma Rsign_cases (r : R) :
  (r < 0 /\ Rsign r = Neg) \/ (r = 0 /\ Rsign r = Zero) \/ (0 < r /\ Rsign r = Pos).
Proof.
  destruct (total_order_T r 0) as [[H|H]|H].
  - left. split; [exact H | apply Rsign_neg; exact H].
  - right. left. split; [exact H | apply Rsign_zero; exact H].
  - right. right. split; [exact H | apply Rsign_pos; exact H].
Qed.


Lemma Rltb_false (x y : R) : Rltb x y = false <-> y <= x.
Proof. unfold Rltb. destruct (Rlt_dec x y); split; intros; try discriminate; auto; lra. Qed.

Lemma fdiv_fin (a t : R) : t <> 0 -> fdiv (Fin a) (Fin t) = Fin (a / t).
Proof.
  intros Ht. unfold fdiv.
  destruct (Rsign_cases t) as [[_ ->] | [[? _] | [_ ->]]]; [reflexivity | contradiction | reflexivity].
Qed.

(** Dividing by zero or by NaN never gives a finite value. *)
Lemma fdiv_undefined (x d : float64) :
  d = Fin 0 \/ d = NaN -> isfinite (fdiv x d) = false.
Proof.
  intros [-> | ->]; [|destruct x; reflexivity].
  destruct x as [a | s |]; simpl; [|rewrite (Rsign_zero 0) by reflexivity; reflexivity | reflexivity].
  rewrite (Rsign_zero 0) by reflexivity.
  destruct (Rsign a); reflexivity.
Qed.

Lemma fmul_100_finite (x : float64) : isfinite (fmul x (Fin 100)) = isfinite x.
Proof.
  destruct x as [a | s |]; simpl; try reflexivity.
  rewrite Rsign_pos by lra. reflexivity.
Qed.

Lemma fsub_1_finite (x : float64) : isfinite (fsub x (Fin 1)) = isfinite x.
Proof. destruct x; reflexivity. Qed.

Lemma pow_recip_finite (x : float64) (n : positive) :
  isfinite x = false -> isfinite (pow_recip x n) = false.
Proof. destruct x, n; simpl; intros H; try reflexivity; discriminate. Qed.

(** On positive reals, [pow_recip] is the real power with exponent [1/n]. *)
Lemma pow_recip_pos (r : R) (n : positive) :
  0 < r -> pow_recip (Fin r) n = Fin (Rpower r (/ IZR (Zpos n))).
Proof.
  intros Hr. destruct n; simpl; rewrite ?Rsign_pos by exact Hr; try reflexivity.
  f_equal. rewrite Rinv_1. symmetry. apply Rpower_1. exact Hr.
Qed.





Lemma nansum_app_nan (l1 l2 : list float64) :
  nansum (l1 ++ NaN :: l2) = nansum (l1 ++ l2).
Proof. unfold nansum. rewrite !filter_app. reflexivity. Qed.

End FloatFacts.

(** Settles the signs of the real numbers of a computed value. *)
Ltac signs :=
  repeat match goal with
         | |- context [Rsign ?x] =>
             first [ rewrite (Rsign_pos x) by lra
                   | rewrite (Rsign_neg x) by lra
                   | rewrite (Rsign_zero x) by lra ]
         end.

(* ================================================================== *)
(** * Properties of the reading of numbers *)
(* ================================================================== *)

Section ParseFacts.

Lemma str_replace_commas (s : string) : str_replace "," "" s = remove_commas s.
Proof.
  induction s as [|c s IH]; [reflexivity|].
  cbn [remove_commas]. destruct (Ascii.eqb c ",") eqn:E.
  - apply Ascii.eqb_eq in E. subst c.
    rewrite str_replace_match
      by (cbn [prefix]; destruct (ascii_dec "," ","); [apply prefix_empty | congruence]).
    simpl. exact IH.
  - rewrite str_replace_copy; [rewrite IH; reflexivity|].
    cbn [prefix]. destruct (ascii_dec "," c) as [<-|]; [discriminate E | reflexivity].
Qed.









End ParseFacts.



(* ================================================================== *)
(** * Properties of the totals per year and of the shares *)
(* ================================================================== *)

Section AggregatorFacts.

Lemma in_insert_sorted (y k : string) (l : list string) :
  In y (insert_sorted k l) <-> y = k \/ In y l.
Proof.
  induction l as [|x l IH]; simpl.
  - intuition.
  - destruct (String.leb k x); simpl; [intuition | rewrite IH; intuition].
Qed.

Lemma in_sort_keys (y : string) (l : list string) : In y (sort_keys l) <-> In y l.
Proof.
  induction l as [|x l IH]; simpl; [tauto|].
  rewrite in_insert_sorted, IH. intuition.
Qed.

Lemma in_unique (y : string) (l : list string) : In y (unique l) <-> In y l.
Proof.
  induction l as [|x l IH]; simpl; [tauto|].
  rewrite filter_In, IH. split.
  - intros [H | [H _]]; auto.
  - intros [H | H]; [auto|].
    destruct (String.eqb x y) eqn:E.
    + apply String.eqb_eq in E. auto.
    + right. split; [exact H | reflexivity].
Qed.

Lemma lookup_keys (f : string -> float64) (keys : list string) (y : string) :
  lookup y (map (fun k => (k, f k)) keys) = if in_dec string_dec y keys then Some (f y) else None.
Proof.
  induction keys as [|k keys IH]; [reflexivity|].
  cbn [map lookup]. destruct (String.eqb k y) eqn:E.
  - apply String.eqb_eq in E. subst k.
    destruct (in_dec string_dec y (y :: keys)) as [_|n]; [reflexivity|].
    exfalso. apply n. left. reflexivity.
  - apply String.eqb_neq in E. rewrite IH.
    destruct (in_dec string_dec y keys) as [i|n], (in_dec string_dec y (k :: keys)) as [i'|n'];
      try reflexivity.
    + exfalso. apply n'. right. exact i.
    + exfalso. destruct i' as [->|i']; [apply E; reflexivity | apply n; exact i'].
Qed.

Lemma year_eqb_eq (cell : option string) (y : string) :
  year_eqb cell y = true <-> cell = Some y.
Proof.
  destruct cell as [k|]; simpl.
  - rewrite String.eqb_eq. split; [intros ->; reflexivity | intros H; injection H; auto].
  - split; discriminate.
Qed.

Lemma in_years (df : list row) (y : string) :
  In y (years df) <-> In (Some y) (map Year df).
Proof.
  unfold years. rewrite in_flat_map, in_map_iff. split.
  - intros (r & Hr & H). exists r. split; [|exact Hr].
    destruct (Year r) as [k|]; [destruct H as [<- | []]; reflexivity | destruct H].
  - intros (r & E & Hr). exists r. split; [exact Hr|]. rewrite E. left. reflexivity.
Qed.

Lemma years_app (a b : list row) : years (a ++ b) = (years a ++ years b)%list.
Proof. apply flat_map_app. Qed.

(** The table of totals holds, for each year of the frame, the sum of its
    group, and holds nothing for other years. *)
Lemma lookup_total_by_year (df : list row) (y : string) :
  lookup y (total_by_year df)
  = if in_dec string_dec y (years df) then Some (year_total df y) else None.
Proof.
  unfold total_by_year. rewrite lookup_keys.
  destruct (in_dec string_dec y (sort_keys (unique (years df)))) as [i|n],
           (in_dec string_dec y (years df)) as [i'|n']; try reflexivity.
  - exfalso. apply n'. apply in_unique, in_sort_keys. exact i.
  - exfalso. apply n. apply in_sort_keys, in_unique. exact i'.
Qed.

(** The merge keeps the rows that have a year, each with the total of its
    year, and drops the others. *)
Lemma merge_share_rows (df l : list row) :
  incl l df -> merge_share l (total_by_year df) = map (with_share df) (filter has_year l).
Proof.
  induction l as [|r l IH]; intros Hl; [reflexivity|].
  assert (IH' : merge_share l (total_by_year df) = map (with_share df) (filter has_year l)).
  { apply IH. intros x Hx. apply Hl. right. exact Hx. }
  unfold merge_share in IH' |- *. cbn [flat_map filter]. unfold has_year at 1.
  destruct (Year r) as [y|] eqn:Ey; [|exact IH'].
  rewrite lookup_total_by_year.
  destruct (in_dec string_dec y (years df)) as [_|n].
  - cbn [app map]. rewrite IH'. f_equal.
    unfold with_share, key_total. rewrite Ey. reflexivity.
  - exfalso. apply n. apply in_years. rewrite <- Ey. apply in_map. apply Hl. left. reflexivity.
Qed.

Lemma merge_share_all (df : list row) :
  merge_share df (total_by_year df) = map (with_share df) (filter has_year df).
Proof. apply merge_share_rows. apply incl_refl. Qed.

Lemma filter_year_with_share (df l : list row) (y : string) :
  filter (year_is y) (map (with_share df) l) = map (with_share df) (filter (in_year y) l).
Proof.
  induction l as [|r l IH]; [reflexivity|].
  cbn [map filter]. unfold year_is at 1. cbn [base with_share]. fold (in_year y r).
  destruct (in_year y r); cbn [map]; rewrite IH; reflexivity.
Qed.

Lemma filter_in_year_has_year (l : list row) (y : string) :
  filter (in_year y) (filter has_year l) = filter (in_year y) l.
Proof.
  induction l as [|r l IH]; [reflexivity|].
  cbn [filter]. unfold has_year at 1.
  destruct (Year r) as [k|] eqn:Ek; cbn [filter].
  - rewrite IH. reflexivity.
  - unfold in_year at 2. rewrite Ek. exact IH.
Qed.

(** The rows of year [y] of the merged frame. *)
Lemma filter_year_merged (df : list row) (y : string) :
  filter (year_is y) (merge_share df (total_by_year df))
  = map (with_share df) (filter (in_year y) df).
Proof. rewrite merge_share_all, filter_year_with_share, filter_in_year_has_year. reflexivity. Qed.






Lemma share_formula (l : list row) (tbl : list (string * float64)) (r : mrow) :
  In r (merge_share l tbl) ->
  Share r = fmul (fdiv (Total (base r)) (Total_total r)) (Fin 100).
Proof.
  unfold merge_share. intros H. apply in_flat_map in H as (x & _ & H).
  destruct (Year x) as [y|]; [|contradiction].
  destruct (lookup y tbl); [|contradiction].
  destruct H as [<- | []]. reflexivity.
Qed.

Lemma year_total_skips_missing (before after : list row) (r : row) (y : string) :
  Total r = NaN ->
  year_total (before ++ r :: after) y = year_total (before ++ after) y.
Proof.
  intros H. unfold year_total. rewrite !filter_app, !map_app. cbn [filter].
  destruct (in_year y r); [|reflexivity].
  cbn [map]. rewrite H. apply nansum_app_nan.
Qed.


End AggregatorFacts.

(** C4: the loaded [Total] is the combined total when that is not
    missing, else the plan total; when both are missing so is [Total], and
    the row then adds nothing to the sum of any year. *)
Theorem total_derivation_fallback (r : raw_row) :
  let combined := Total_Plan_and_Non_Plan (load_row r) in
  let plan := Total_Plan (load_row r) in
  (isna combined = false -> Total (load_row r) = combined) /\
  (isna combined = true -> Total (load_row r) = plan) /\
  (isna combined = true -> isna plan = true ->
     Total (load_row r) = NaN /\
     forall before after y,
       year_total (before ++ load_row r :: after) y = year_total (before ++ after) y /\
       forall v, lookup y (total_by_year (before ++ after)) = Some v ->
                 lookup y (total_by_year (before ++ load_row r :: after)) = Some v) /\
  (combined = NaN -> plan = Fin 500 -> Total (load_row r) = Fin 500) /\
  (combined = Fin 500 -> plan = Fin 300 -> Total (load_row r) = Fin 500).
Proof.
  cbn zeta. cbn [load_row Total Total_Plan Total_Plan_and_Non_Plan]. unfold fillna.
  set (c := clean_numeric (raw_Total_Plan_and_Non_Plan r)).
  set (p := clean_numeric (raw_Total_Plan r)).
  assert (Hskip : isna c = true -> isna p = true ->
            forall before after y,
              year_total (before ++ load_row r :: after) y = year_total (before ++ after) y).
  { intros Hc Hp before after y. apply year_total_skips_missing.
    cbn [load_row Total]. unfold fillna. fold c p. rewrite Hc.
    destruct p; try discriminate. reflexivity. }
  split; [|split; [|split; [|split]]].
  - intros ->. reflexivity.
  - intros ->. reflexivity.
  - intros Hc Hp. split; [rewrite Hc; destruct p; try discriminate; reflexivity|].
    intros before after y. split; [apply Hskip; assumption|].
    intros v. rewrite !lookup_total_by_year.
    destruct (in_dec string_dec y (years (before ++ after))) as [i|n]; [|discriminate].
    intros Hv. injection Hv as <-.
    destruct (in_dec string_dec y (years (before ++ load_row r :: after))) as [_|n'].
    + f_equal. apply Hskip; assumption.
    + exfalso. apply n'. rewrite years_app in i |- *. apply in_app_iff in i as [i|i];
        apply in_app_iff; [left; exact i | right].
      change (load_row r :: after) with ([load_row r] ++ after)%list.
      rewrite years_app. apply in_app_iff. right. exact i.
  - intros -> ->. reflexivity.
  - intros -> _. reflexivity.
Qed.

Lemma total_derivation_fallback_witness :
  Total (load_row (csv_line "MINISTRY OF DEFENCE" "2020-2021" "500" "nan")) = Fin 500 /\
  Total (load_row (csv_line "MINISTRY OF DEFENCE" "2020-2021" "300" "500")) = Fin 500 /\
  Total (load_row (csv_line "MINISTRY OF DEFENCE" "2020-2021" "nan" "nan")) = NaN.
Proof.
  split; [|split].
  - destruct (total_derivation_fallback
                (csv_line "MINISTRY OF DEFENCE" "2020-2021" "500" "nan")) as (_ & _ & _ & H & _).
    apply H; [reflexivity | run; f_equal; simpl; lra].
  - destruct (total_derivation_fallback
                (csv_line "MINISTRY OF DEFENCE" "2020-2021" "300" "500")) as (_ & _ & _ & _ & H).
    apply H; run; f_equal; simpl; lra.
  - destruct (total_derivation_fallback
                (csv_line "MINISTRY OF DEFENCE" "2020-2021" "nan" "nan")) as (_ & _ & H & _).
    apply H; reflexivity.
Defined.




(** C7 (as amended): where the total of the year is zero or NaN, the share
    of a row is the quotient the program forms and is no finite number: it
    is NaN or an infinity.  [prepare] has no failing path, so nothing is
    raised. *)
Theorem share_undefined_without_total (csv : list raw_row) (r : mrow) :
  In r (prepare csv) ->
  Total_total r = Fin 0 \/ Total_total r = NaN ->
  Share r = fmul (fdiv (Total (base r)) (Total_total r)) (Fin 100) /\
  isfinite (Share r) = false /\
  (Share r = NaN \/ exists s, Share r = Inf s).
Proof.
  intros Hin Hz. unfold prepare in Hin. apply share_formula in Hin.
  assert (Hf : isfinite (Share r) = false).
  { rewrite Hin, fmul_100_finite. apply fdiv_undefined. exact Hz. }
  split; [exact Hin|]. split; [exact Hf|].
  destruct (Share r) as [v | s |]; [discriminate | right; exists s; reflexivity | left; reflexivity].
Qed.

Lemma share_undefined_without_total_witness :
  Forall (fun r => isfinite (Share r) = false) (prepare csv_empty_year).
Proof.
  apply Forall_forall. intros r Hr.
  apply (share_undefined_without_total csv_empty_year r Hr).
  destruct Hr as [<- | [<- | []]]; left; reflexivity.
Defined.

(** C7 as stated fails: in a year whose totals 5 and -5 cancel, the total
    of the year is 0 and the shares are the infinities, which are numbers
    and not the missing value: they compare with other numbers. *)
Lemma share_with_zero_total_is_infinite :
  map Total_total (prepare csv_cancel) = [Fin 0; Fin 0] /\
  map Share (prepare csv_cancel) = [Inf false; Inf true] /\
  map (fun r => isna (Share r)) (prepare csv_cancel) = [false; false] /\
  map (fun r => fltb (Fin 100) (Share r)) (prepare csv_cancel) = [true; false].
Proof.
  assert (Ht : map Total_total (prepare csv_cancel) = [Fin 0; Fin 0]).
  { run. simpl powerRZ. repeat f_equal; lra. }
  assert (Hs : map Share (prepare csv_cancel) = [Inf false; Inf true]).
  { run. simpl powerRZ. signs. reflexivity. }
  split; [exact Ht|]. split; [exact Hs|].
  rewrite <- (map_map Share isna), <- (map_map Share (fltb (Fin 100))), Hs.
  split; reflexivity.
Qed.

(* ================================================================== *)
(** * Properties of the CAGR block *)
(* ================================================================== *)

Section GrowthFacts.

Lemma root_of_power (k : nat) (a : R) :
  (0 < k)%nat -> 0 < a -> Rpower (a ^ k) (/ INR k) = a.
Proof.
  intros Hk Ha.
  assert (HIk : 0 < INR k) by (apply lt_0_INR; exact Hk).
  rewrite <- Rpower_pow by exact Ha. rewrite Rpower_mult.
  rewrite Rinv_r by lra. apply Rpower_1. exact Ha.
Qed.

Lemma root_lower (k : nat) (x a : R) :
  (0 < k)%nat -> 0 < a -> a ^ k < x -> a < Rpower x (/ INR k).
Proof.
  intros Hk Ha Hlt.
  assert (HIk : 0 < INR k) by (apply lt_0_INR; exact Hk).
  assert (Hak : 0 < a ^ k) by (apply pow_lt; exact Ha).
  replace a with (Rpower (a ^ k) (/ INR k)) at 1.
  - apply Rlt_Rpower_l; [apply Rinv_0_lt_compat; exact HIk | split; [exact Hak | exact Hlt]].
  - rewrite <- Rpower_pow by exact Ha. rewrite Rpower_mult.
    rewrite Rinv_r by lra. apply Rpower_1. exact Ha.
Qed.

Lemma root_upper (k : nat) (x a : R) :
  (0 < k)%nat -> 0 < x -> x < a ^ k -> 0 < a -> Rpower x (/ INR k) < a.
Proof.
  intros Hk Hx Hlt Ha.
  assert (HIk : 0 < INR k) by (apply lt_0_INR; exact Hk).
  replace a with (Rpower (a ^ k) (/ INR k)) at 1.
  - apply Rlt_Rpower_l; [apply Rinv_0_lt_compat; exact HIk | split; [exact Hx | exact Hlt]].
  - rewrite <- Rpower_pow by exact Ha. rewrite Rpower_mult.
    rewrite Rinv_r by lra. apply Rpower_1. exact Ha.
Qed.

(** The tenth root of 9.4148 lies between 1.2513 and 1.2514. *)
Lemma decade_root_bounds (x : R) :
  x = 94148 / 10000 ->
  12513 / 10000 < Rpower x (/ 10) < 12514 / 10000.
Proof.
  intros ->. assert (E : / 10 = / INR 10) by (simpl; lra). rewrite E. split.
  - apply root_lower; [lia | lra | lra].
  - apply root_upper; [lia | lra | lra | lra].
Qed.

Lemma Rpower_one (e : R) : Rpower 1 e = 1.
Proof. unfold Rpower. rewrite ln_1, Rmult_0_r. apply exp_0. Qed.

(** Equal first and last totals give no growth. *)
Lemma growth_of_one (a : R) (n : positive) :
  a <> 0 ->
  fmul (fsub (pow_recip (fdiv (Fin a) (Fin a)) n) (Fin 1)) (Fin 100) = Fin 0.
Proof.
  intros Ha. rewrite fdiv_fin by exact Ha.
  replace (a / a) with 1 by (field; exact Ha).
  rewrite pow_recip_pos by lra. rewrite Rpower_one.
  cbn [fsub fneg fadd fmul]. f_equal. lra.
Qed.

Lemma cagr_of_unfold (data : list mrow) (r0 rn : mrow) (n : positive) :
  iloc_first data = Ok r0 -> iloc_last data = Ok rn ->
  Z.of_nat (List.length data) = (Z.pos n + 1)%Z ->
  cagr_of data
  = Ok (fmul (fsub (pow_recip (fdiv (Total (base rn)) (Total (base r0))) n) (Fin 1)) (Fin 100)).
Proof.
  intros H0 Hn Hlen. unfold cagr_of. rewrite H0, Hn. cbn [bind].
  rewrite Hlen. replace (Z.pos n + 1 - 1)%Z with (Z.pos n) by lia. reflexivity.
Qed.

Lemma iloc_last_nonempty {A} (x : A) (l : list A) : exists y, iloc_last (x :: l) = Ok y.
Proof.
  unfold iloc_last. destruct (rev (x :: l)) as [|y l'] eqn:E; [|exists y; reflexivity].
  apply (f_equal (@List.length A)) in E. rewrite length_rev in E. discriminate.
Qed.

Lemma cagr_of_single (r : mrow) : cagr_of [r] = Raise ZeroDivisionError.
Proof. reflexivity. Qed.

(** With a base that is zero or missing the quotient is no finite number,
    and neither is anything computed from it. *)
Lemma growth_of_undefined_ratio (x : float64) (n : positive) :
  isfinite x = false ->
  isfinite (fmul (fsub (pow_recip x n) (Fin 1)) (Fin 100)) = false.
Proof.
  intros H. rewrite fmul_100_finite, fsub_1_finite. apply pow_recip_finite. exact H.
Qed.

Lemma growth_of_nan (n : positive) :
  fmul (fsub (pow_recip NaN n) (Fin 1)) (Fin 100) = NaN.
Proof. destruct n; reflexivity. Qed.

Lemma fdiv_nan_r (x : float64) : fdiv x NaN = NaN.
Proof. destruct x; reflexivity. Qed.

End GrowthFacts.

Lemma cagr_of_long (data : list mrow) (r0 : mrow) :
  iloc_first data = Ok r0 -> (2 <= List.length data)%nat ->
  exists rn n,
    iloc_last data = Ok rn /\
    Z.of_nat (List.length data) = (Z.pos n + 1)%Z /\
    cagr_of data
    = Ok (fmul (fsub (pow_recip (fdiv (Total (base rn)) (Total (base r0))) n) (Fin 1)) (Fin 100)).
Proof.
  intros H0 Hlen. destruct data as [|x l]; [discriminate|].
  destruct (iloc_last_nonempty x l) as [rn Hn].
  exists rn, (Pos.of_nat (List.length l)).
  assert (Hz : Z.of_nat (List.length (x :: l)) = (Z.pos (Pos.of_nat (List.length l)) + 1)%Z).
  { cbn [List.length] in Hlen |- *. lia. }
  split; [exact Hn|]. split; [exact Hz|].
  apply cagr_of_unfold; assumption.
Qed.

(** C2 (as amended): a ministry with a single row gets a raised
    [ZeroDivisionError].  A ministry with two rows or more gets a value and
    no error, also when its rows all belong to one year: NaN when the total
    of its first row is missing, NaN or an infinity when that total is
    zero, and 0 when its first and last rows carry the same total other
    than zero.  With a single row or a first total that is missing or zero
    the result is no finite number, so not 0. *)
Theorem cagr_undefined_growth (df : list mrow) (ministry : string) :
  let data := filter (ministry_is ministry) df in
  (List.length data = 1%nat -> deep_dive_cagr df ministry = Raise ZeroDivisionError) /\
  (forall r0, iloc_first data = Ok r0 -> (2 <= List.length data)%nat ->
     Total (base r0) = NaN -> deep_dive_cagr df ministry = Ok NaN) /\
  (forall r0, iloc_first data = Ok r0 -> (2 <= List.length data)%nat ->
     Total (base r0) = Fin 0 ->
     exists v, deep_dive_cagr df ministry = Ok v /\ isfinite v = false) /\
  (forall r0 rn a, iloc_first data = Ok r0 -> iloc_last data = Ok rn ->
     (2 <= List.length data)%nat ->
     Total (base r0) = Fin a -> Total (base rn) = Fin a -> a <> 0 ->
     deep_dive_cagr df ministry = Ok (Fin 0)) /\
  (forall r0, iloc_first data = Ok r0 ->
     List.length data = 1%nat \/ Total (base r0) = Fin 0 \/ Total (base r0) = NaN ->
     forall v, deep_dive_cagr df ministry <> Ok (Fin v)).
Proof.
  cbn zeta. unfold deep_dive_cagr. set (data := filter (ministry_is ministry) df).
  assert (H1 : List.length data = 1%nat -> cagr_of data = Raise ZeroDivisionError).
  { intros Hlen. destruct data as [|x [|y l]]; try discriminate. apply cagr_of_single. }
  assert (H2 : forall r0, iloc_first data = Ok r0 -> (2 <= List.length data)%nat ->
                 Total (base r0) = NaN -> cagr_of data = Ok NaN).
  { intros r0 H0 Hlen Hna. destruct (cagr_of_long data r0 H0 Hlen) as (rn & n & _ & _ & ->).
    rewrite Hna, fdiv_nan_r, growth_of_nan. reflexivity. }
  assert (H3 : forall r0, iloc_first data = Ok r0 -> (2 <= List.length data)%nat ->
                 Total (base r0) = Fin 0 ->
                 exists v, cagr_of data = Ok v /\ isfinite v = false).
  { intros r0 H0 Hlen Hz. destruct (cagr_of_long data r0 H0 Hlen) as (rn & n & _ & _ & ->).
    eexists. split; [reflexivity|].
    apply growth_of_undefined_ratio, fdiv_undefined. left. exact Hz. }
  split; [exact H1|]. split; [exact H2|]. split; [exact H3|]. split.
  - intros r0 rn a H0 Hn Hlen Ha0 Han Ha.
    destruct (cagr_of_long data r0 H0 Hlen) as (rn' & n & Hn' & _ & ->).
    rewrite Hn in Hn'. injection Hn' as <-.
    rewrite Ha0, Han, growth_of_one by exact Ha. reflexivity.
  - intros r0 H0 Hcase v Hv.
    assert (Hlen : List.length data = 1%nat \/ (2 <= List.length data)%nat).
    { destruct data as [|x [|y l]]; [discriminate | left; reflexivity | right; simpl; lia]. }
    destruct Hlen as [Hlen | Hlen]; [rewrite (H1 Hlen) in Hv; discriminate|].
    destruct Hcase as [Hone | [Hz | Hna]].
    + lia.
    + destruct (H3 r0 H0 Hlen Hz) as (w & Hw & Hfin). rewrite Hw in Hv.
      injection Hv as ->. discriminate.
    + rewrite (H2 r0 H0 Hlen Hna) in Hv. discriminate.
Qed.

Lemma cagr_undefined_growth_witness :
  deep_dive_cagr (prepare csv_one_year) "Defence" = Raise ZeroDivisionError /\
  deep_dive_cagr (prepare csv_missing_base) "Defence" = Ok NaN /\
  (exists v, deep_dive_cagr (prepare csv_zero_base) "Defence" = Ok v /\ isfinite v = false) /\
  deep_dive_cagr (prepare csv_two_estimates) "Defence" = Ok (Fin 0).
Proof.
  split; [|split; [|split]].
  - destruct (cagr_undefined_growth (prepare csv_one_year) "Defence") as (H & _).
    apply H. reflexivity.
  - destruct (cagr_undefined_growth (prepare csv_missing_base) "Defence") as (_ & H & _).
    eapply H; [reflexivity | simpl; lia | reflexivity].
  - destruct (cagr_undefined_growth (prepare csv_zero_base) "Defence") as (_ & _ & H & _).
    eapply H; [reflexivity | simpl; lia | run; f_equal; simpl; lra].
  - destruct (cagr_undefined_growth (prepare csv_two_estimates) "Defence") as (_ & _ & _ & H & _).
    eapply (H _ _ (100 * powerRZ 10 0)); [reflexivity | reflexivity | simpl; lia | | |].
    + run. reflexivity.
    + run. reflexivity.
    + simpl. lra.
Defined.

(** C2 as stated fails in both of its cases.  With a missing total in the
    first year the CAGR block raises nothing; its result is NaN.  And a
    ministry present in a single year, through the two estimates of that
    year, gets neither an error nor a missing value: its CAGR is 0. *)
Lemma cagr_without_undefined_growth :
  map (fun r => isna (Total (base r)))
      (filter (ministry_is "Defence") (prepare csv_missing_base)) = [true; false] /\
  deep_dive_cagr (prepare csv_missing_base) "Defence" = Ok NaN /\
  (forall e, deep_dive_cagr (prepare csv_missing_base) "Defence" <> Raise e) /\
  year_options (prepare csv_two_estimates) = ["2020-2021"] /\
  List.length (filter (ministry_is "Defence") (prepare csv_two_estimates)) = 2%nat /\
  deep_dive_cagr (prepare csv_two_estimates) "Defence" = Ok (Fin 0).
Proof.
  split; [reflexivity|]. split; [reflexivity|].
  split; [intros e H; discriminate H|]. split; [reflexivity|]. split; [reflexivity|].
  run. simpl powerRZ. rewrite !Rsign_pos by lra. do 2 f_equal. field.
Qed.

(** C5 (as amended): with a first total [f] that is a number other than
    zero and [n >= 1] steps from the first to the last row of the ministry,
    the CAGR is [((last / f) ** (1/n) - 1) * 100]; for a positive quotient
    [l / f] this is the real number [((l / f) ^ (1/n) - 1) * 100].  From
    100 to 941.48 over ten steps it lies between 25.13 and 25.14. *)
Theorem cagr_value :
  (forall (df : list mrow) (ministry : string) (r0 rn : mrow) (f : R) (n : positive),
     let data := filter (ministry_is ministry) df in
     iloc_first data = Ok r0 ->
     iloc_last data = Ok rn ->
     Z.of_nat (List.length data) = (Z.pos n + 1)%Z ->
     Total (base r0) = Fin f ->
     f <> 0 ->
     deep_dive_cagr df ministry
     = Ok (fmul (fsub (pow_recip (fdiv (Total (base rn)) (Fin f)) n) (Fin 1)) (Fin 100)) /\
     (forall l, Total (base rn) = Fin l -> 0 < l / f ->
        deep_dive_cagr df ministry = Ok (Fin ((Rpower (l / f) (/ IZR (Z.pos n)) - 1) * 100)))) /\
  (exists v,
     deep_dive_cagr (prepare csv_decade) "Defence" = Ok (Fin v) /\
     2513 / 100 < v < 2514 / 100 /\ Rabs (v - 251 / 10) < 1 / 10).
Proof.
  split.
  - cbn zeta. intros df ministry r0 rn f n H0 Hn Hlen Hf Hnz. unfold deep_dive_cagr.
    rewrite (cagr_of_unfold _ r0 rn n H0 Hn Hlen), Hf.
    split; [reflexivity|].
    intros l Hl Hpos. rewrite Hl, fdiv_fin by exact Hnz.
    rewrite pow_recip_pos by exact Hpos. reflexivity.
  - assert (Hb := decade_root_bounds (94148 * / (10 * (10 * 1)) / (100 * 1))).
    eexists. split; [|split].
    + run. simpl powerRZ. rewrite !Rsign_pos by lra. reflexivity.
    + lra.
    + unfold Rabs. destruct (Rcase_abs _); lra.
Qed.

(** The example of C5 through the general statement. *)
Lemma cagr_value_witness :
  exists v,
    deep_dive_cagr (prepare csv_decade) "Defence" = Ok (Fin v) /\
    2513 / 100 < v < 2514 / 100.
Proof.
  destruct cagr_value as [Hgen _].
  edestruct (Hgen (prepare csv_decade) "Defence") as [_ H].
  - run. reflexivity.
  - run. reflexivity.
  - instantiate (1 := 10%positive). reflexivity.
  - run. reflexivity.
  - simpl. apply Rgt_not_eq. lra.
  - eexists. split.
    + apply H; [run; reflexivity | simpl; lra].
    + assert (Hb := decade_root_bounds (94148 * / (10 * (10 * 1)) / (100 * 1))).
      simpl. lra.
Defined.

(** C5 as stated fails three times.  Its example: the CAGR from 100 to
    941.48 over ten steps is about 25.14, more than 0.1 away from 25.0.
    Its first and last year: with the later year first in the file the
    block divides the total of the earlier year by that of the later one
    and reports -50 where the formula of the claim gives 100.  Its number
    of steps: a ministry with rows in the first and the third of three
    years is given one step, and 300 is reported where the formula over
    two steps gives 100. *)
Lemma cagr_value_fails :
  (exists v,
     deep_dive_cagr (prepare csv_decade) "Defence" = Ok (Fin v) /\
     2513 / 100 < v < 2514 / 100 /\
     ~ Rabs (v - 25) <= 1 / 10) /\
  (year_options (prepare csv_reversed) = ["2015-2016"; "2014-2015"] /\
   deep_dive_cagr (prepare csv_reversed) "Defence" = Ok (Fin (-50)) /\
   (Rpower (200 / 100) (/ 1) - 1) * 100 = 100) /\
  (year_options (prepare csv_gap) = ["2016-2017"; "2015-2016"; "2014-2015"] /\
   deep_dive_cagr (prepare csv_gap) "Defence" = Ok (Fin 300) /\
   (Rpower (400 / 100) (/ 2) - 1) * 100 = 100).
Proof.
  split; [|split].
  - eexists. split; [|split].
    + run. simpl powerRZ. rewrite !Rsign_pos by lra. reflexivity.
    + assert (Hb := decade_root_bounds (94148 * / (10 * (10 * 1)) / (100 * 1))).
      lra.
    + assert (Hb := decade_root_bounds (94148 * / (10 * (10 * 1)) / (100 * 1))).
      unfold Rabs. destruct (Rcase_abs _); lra.
  - split; [reflexivity|]. split.
    + run. simpl powerRZ. rewrite !Rsign_pos by lra. do 2 f_equal. field.
    + rewrite Rinv_1, Rpower_1 by lra. lra.
  - split; [reflexivity|]. split.
    + run. simpl powerRZ. rewrite !Rsign_pos by lra. do 2 f_equal. field.
    + replace (400 / 100) with (2 ^ 2) by lra.
      replace (/ 2) with (/ INR 2) by (simpl; lra).
      rewrite root_of_power by (lia || lra). lra.
Qed.
(* ================================================================== *)
(** * Properties of double precision *)
(* ================================================================== *)

Section DoubleFacts.





Lemma nansum_in_exact (l : list float64) : nansum_in exact l = nansum l.
Proof. reflexivity. Qed.

Lemma clean_numeric_in_exact (cell : string) : clean_numeric_in exact cell = clean_numeric cell.
Proof.
  unfold clean_numeric_in, parse_float_in, clean_numeric, to_numeric_coerce, parse_float.
  destruct (parse_decimal _) as [[m e]|]; [reflexivity|].
  destruct (parse_infinity _); reflexivity.
Qed.

End DoubleFacts.
(* ================================================================== *)
(** * Properties of the balance check *)
(* ================================================================== *)

Section BalanceFacts.

Lemma filter_filter {A} (p q : A -> bool) (l : list A) :
  filter q (filter p l) = filter (fun x => p x && q x)%bool l.
Proof.
  induction l as [|x l IH]; [reflexivity|].
  simpl. destruct (p x); simpl; [destruct (q x)|]; rewrite IH; reflexivity.
Qed.







End BalanceFacts.




(* ================================================================== *)
(** * Further properties: the frame the pages work on *)
(* ================================================================== *)

Section FrameFacts.

Lemma insert_sorted_perm (k : string) (l : list string) :
  Permutation (insert_sorted k l) (k :: l).
Proof.
  induction l as [|x l IH]; simpl; [reflexivity|].
  destruct (String.leb k x); [reflexivity|].
  rewrite IH. apply perm_swap.
Qed.

Lemma sort_keys_perm (l : list string) : Permutation (sort_keys l) l.
Proof.
  induction l as [|x l IH]; simpl; [reflexivity|].
  rewrite insert_sorted_perm. constructor. exact IH.
Qed.

Lemma insert_sorted_sorted (k : string) (l : list string) :
  Sorted (fun a b => String.leb a b = true) l ->
  Sorted (fun a b => String.leb a b = true) (insert_sorted k l).
Proof.
  induction 1 as [|x l Hs IH Hd]; simpl; [repeat constructor|].
  destruct (String.leb k x) eqn:E.
  - constructor; [constructor; assumption | constructor; exact E].
  - constructor; [exact IH|].
    assert (Hxk : String.leb x k = true).
    { destruct (String.leb_total k x) as [H|H]; [congruence | exact H]. }
    destruct Hd as [|y l Hy]; simpl; [constructor; exact Hxk|].
    destruct (String.leb k y); constructor; assumption.
Qed.

Lemma sort_keys_sorted (l : list string) :
  Sorted (fun a b => String.leb a b = true) (sort_keys l).
Proof.
  induction l as [|x l IH]; simpl; [constructor | apply insert_sorted_sorted; exact IH].
Qed.

Lemma unique_nodup (l : list string) : NoDup (unique l).
Proof.
  induction l as [|x l IH]; simpl; constructor.
  - intros H. apply filter_In in H as [_ H]. rewrite String.eqb_refl in H. discriminate.
  - apply NoDup_filter. exact IH.
Qed.

Lemma sort_keys_nodup (l : list string) : NoDup l -> NoDup (sort_keys l).
Proof.
  intros H. apply (Permutation_NoDup (l := l)); [symmetry; apply sort_keys_perm | exact H].
Qed.

Lemma sorted_snoc {A} (Q : A -> A -> Prop) (m : list A) (a : A) :
  Sorted Q m ->
  (forall z m0, m = (m0 ++ [z])%list -> Q z a) ->
  Sorted Q (m ++ [a])%list.
Proof.
  induction 1 as [|b m Hs IH Hd]; intros Hlast; simpl; [repeat constructor|].
  constructor.
  - apply IH. intros z m0 ->. apply (Hlast z (b :: m0)). reflexivity.
  - destruct Hd as [|y m Hy]; simpl; constructor; [|exact Hy].
    apply (Hlast b []). reflexivity.
Qed.

Lemma sorted_rev {A} (R : A -> A -> Prop) (l : list A) :
  Sorted R l -> Sorted (fun a b => R b a) (rev l).
Proof.
  induction 1 as [|a l Hs IH Hd]; simpl; [constructor|].
  apply sorted_snoc; [exact IH|].
  intros z m0 E. apply (f_equal (@rev A)) in E.
  rewrite rev_involutive, rev_app_distr in E. simpl in E. subst l.
  inversion Hd. assumption.
Qed.

Lemma with_share_base (df l : list row) : map base (map (with_share df) l) = l.
Proof. rewrite map_map. simpl. apply map_id. Qed.

Lemma has_year_some (r : row) : has_year r = true <-> exists y, Year r = Some y.
Proof.
  unfold has_year. destruct (Year r) as [y|]; split; intros H;
    [exists y; reflexivity | reflexivity | discriminate | destruct H; discriminate].
Qed.

Lemma isin_In (l : list string) (s : string) : isin l s = true <-> In s l.
Proof.
  unfold isin. rewrite existsb_exists. split.
  - intros (x & Hx & E). apply String.eqb_eq in E. subst. exact Hx.
  - intros H. exists s. split; [exact H | apply String.eqb_refl].
Qed.

End FrameFacts.

(** X1: the years offered in the sidebar are exactly the years of the
    frame, each once, from the latest down. *)
Theorem year_options_spec (df : list mrow) :
  (forall y, In y (year_options df) <-> exists r, In r df /\ Year (base r) = Some y) /\
  NoDup (year_options df) /\
  Sorted (fun a b => String.leb b a = true) (year_options df).
Proof.
  unfold year_options. split; [|split].
  - intros y. rewrite <- in_rev, in_sort_keys, in_unique, in_years, map_map, in_map_iff.
    split; intros (r & H1 & H2); exists r; auto.
  - apply NoDup_rev, sort_keys_nodup, unique_nodup.
  - apply (sorted_rev (fun a b => String.leb a b = true)). apply sort_keys_sorted.
Qed.

(** X2: the table of totals has one line per year of the frame, in
    ascending order of the years, and the line of a year holds the sum of
    the totals of its rows that are not missing. *)
Theorem total_by_year_spec (df : list row) :
  NoDup (map fst (total_by_year df)) /\
  Sorted (fun a b => String.leb a b = true) (map fst (total_by_year df)) /\
  (forall y v, In (y, v) (total_by_year df) <->
               In (Some y) (map Year df) /\ v = year_total df y).
Proof.
  unfold total_by_year. rewrite map_map. cbn [fst]. rewrite map_id.
  split; [|split].
  - apply sort_keys_nodup, unique_nodup.
  - apply sort_keys_sorted.
  - intros y v. rewrite in_map_iff. split.
    + intros (k & E & Hk). injection E as -> ->.
      split; [apply in_years, in_unique, in_sort_keys; exact Hk | reflexivity].
    + intros [Hy ->]. exists y. split; [reflexivity|].
      apply in_sort_keys, in_unique, in_years. exact Hy.
Qed.

(** X3: the merge with the totals repeats no row and loses exactly the
    rows without a year: the frame of the pages holds the loaded rows whose
    ministry is one of the five focus ministries and whose year is not
    missing, in the order of the file. *)
Theorem prepare_keeps_focus_rows (csv : list raw_row) :
  map base (prepare csv)
  = filter has_year (filter (fun r => isin focus_ministries (Ministry r)) (map load_row csv)) /\
  (forall r, In r (prepare csv) ->
     In (Ministry (base r)) focus_ministries /\ exists y, Year (base r) = Some y) /\
  (forall x, In x csv -> raw_Year x = None ->
     forall r, In r (prepare csv) -> base r <> load_row x) /\
  (List.length (prepare csv) <= List.length csv)%nat.
Proof.
  unfold prepare. rewrite merge_share_all.
  split; [apply with_share_base|]. split; [|split].
  - intros r Hr. apply in_map_iff in Hr as (x & <- & Hx).
    apply filter_In in Hx as [Hx Hy]. apply filter_In in Hx as [_ Hx].
    split; [apply isin_In; exact Hx | apply has_year_some; exact Hy].
  - intros x _ Hnone r Hr E. apply in_map_iff in Hr as (z & <- & Hz).
    apply filter_In in Hz as [_ Hy]. cbn [base with_share] in E. subst z.
    unfold has_year in Hy. cbn [Year load_row] in Hy. rewrite Hnone in Hy. discriminate.
  - rewrite length_map. unfold focus_filter, load_data.
    rewrite <- (length_map load_row csv).
    etransitivity; [apply filter_length_le | apply filter_length_le].
Qed.

Lemma total_total_of_row (csv : list raw_row) (r : mrow) :
  In r (prepare csv) ->
  exists y,
    Year (base r) = Some y /\
    Total_total r
    = nansum (map (fun x => Total (base x)) (filter (year_is y) (prepare csv))).
Proof.
  unfold prepare. set (df := focus_filter (load_data csv)).
  intros Hr. pose proof Hr as Hr'. rewrite merge_share_all in Hr'.
  apply in_map_iff in Hr' as (x & <- & Hx). apply filter_In in Hx as [_ Hy].
  apply has_year_some in Hy as [y Hy]. exists y. split; [exact Hy|].
  rewrite filter_year_merged, map_map. cbn [Total_total with_share base].
  unfold key_total. rewrite Hy. reflexivity.
Qed.

(** X4: every row of the frame has a year, and its [Total_total] is the
    sum of the totals, those missing left out, of the rows of the frame
    with that year; rows of the same year carry the same [Total_total]. *)
Theorem total_total_invariant (csv : list raw_row) (r : mrow) :
  In r (prepare csv) ->
  exists y,
    Year (base r) = Some y /\
    Total_total r
    = nansum (map (fun x => Total (base x)) (filter (year_is y) (prepare csv))) /\
    forall r', In r' (prepare csv) -> Year (base r') = Some y ->
               Total_total r' = Total_total r.
Proof.
  intros Hr. destruct (total_total_of_row csv r Hr) as (y & Hy & Ht).
  exists y. split; [exact Hy|]. split; [exact Ht|].
  intros r' Hr' Hy'.
  destruct (total_total_of_row csv r' Hr') as (y' & Hy2 & Ht').
  rewrite Hy' in Hy2. injection Hy2 as <-. rewrite Ht, Ht'. reflexivity.
Qed.

Lemma total_total_invariant_witness :
  map Total_total (prepare csv_one_year) = [Fin 400; Fin 400].
Proof.
  assert (Hall : forall r, In r (prepare csv_one_year) -> Total_total r = Fin 400).
  { intros r Hr. destruct (total_total_invariant csv_one_year r Hr) as (y & Hy & -> & _).
    destruct Hr as [<- | [<- | []]]; injection Hy as <-; run; f_equal; simpl; lra. }
  assert (E : exists a b, prepare csv_one_year = [a; b]) by (do 2 eexists; reflexivity).
  destruct E as (a & b & E). rewrite E in Hall |- *. simpl.
  rewrite (Hall a), (Hall b) by (simpl; auto). reflexivity.
Defined.

(** X6: a year whose rows all lack a total has the total 0, not a missing
    one. *)
Theorem year_total_of_missing_totals (df : list row) (y : string) :
  (forall r, In r df -> Year r = Some y -> Total r = NaN) ->
  year_total df y = Fin 0.
Proof.
  intros H. unfold year_total, nansum.
  replace (filter notna (map Total (filter (in_year y) df))) with (@nil float64); [reflexivity|].
  symmetry. induction df as [|r df IH]; [reflexivity|].
  assert (IH' := IH (fun x Hx => H x (or_intror Hx))).
  cbn [filter]. destruct (in_year y r) eqn:E; [|exact IH'].
  unfold in_year in E. apply year_eqb_eq in E.
  cbn [map filter]. rewrite (H r (or_introl eq_refl) E). exact IH'.
Qed.

Lemma year_total_of_missing_totals_witness :
  year_total (focus_filter (load_data csv_empty_year)) "2020-2021" = Fin 0.
Proof.
  apply year_total_of_missing_totals.
  intros r Hr _. destruct Hr as [<- | [<- | []]]; reflexivity.
Defined.

Lemma year_options_spec_witness :
  year_options (prepare csv_decade)
  = [ "2024-2025"; "2023-2024"; "2022-2023"; "2021-2022"; "2020-2021"; "2019-2020";
      "2018-2019"; "2017-2018"; "2016-2017"; "2015-2016"; "2014-2015" ] /\
  In "2019-2020" (year_options (prepare csv_decade)).
Proof.
  split; [reflexivity|].
  destruct (year_options_spec (prepare csv_decade)) as (H & _).
  apply H. eexists. split; [do 5 right; left; reflexivity | reflexivity].
Defined.

Lemma total_by_year_spec_witness :
  In ("2020-2021", year_total (focus_filter (load_data csv_one_year)) "2020-2021")
     (total_by_year (focus_filter (load_data csv_one_year))).
Proof.
  destruct (total_by_year_spec (focus_filter (load_data csv_one_year))) as (_ & _ & H).
  apply H. split; [left; reflexivity | reflexivity].
Defined.

Lemma prepare_keeps_focus_rows_witness :
  Forall (fun r => In (Ministry (base r)) focus_ministries) (prepare csv_no_year) /\
  map (fun r => Ministry (base r)) (prepare csv_no_year) = ["Defence"; "Home Affairs"].
Proof.
  split; [|reflexivity].
  destruct (prepare_keeps_focus_rows csv_no_year) as (_ & H & _).
  apply Forall_forall. intros r Hr. apply (H r Hr).
Defined.

(* ================================================================== *)
(** * Further properties: the CAGR block *)
(* ================================================================== *)

Section GrowthOutcome.

Lemma Rpower_recip_cmp (x : R) (n : positive) :
  0 < x ->
  (1 < x -> 1 < Rpower x (/ IZR (Z.pos n))) /\
  (x < 1 -> Rpower x (/ IZR (Z.pos n)) < 1) /\
  (x = 1 -> Rpower x (/ IZR (Z.pos n)) = 1).
Proof.
  intros Hx.
  assert (He : 0 < / IZR (Z.pos n)).
  { apply Rinv_0_lt_compat. apply IZR_lt. reflexivity. }
  split; [|split].
  - intros H.
    pose proof (Rlt_Rpower_l 1 x (/ IZR (Z.pos n)) He (conj Rlt_0_1 H)) as K.
    rewrite Rpower_one in K. exact K.
  - intros H.
    pose proof (Rlt_Rpower_l x 1 (/ IZR (Z.pos n)) He (conj Hx H)) as K.
    rewrite Rpower_one in K. exact K.
  - intros ->. apply Rpower_one.
Qed.

End GrowthOutcome.

(** X7: the CAGR block raises [IndexError] exactly when the ministry has no
    row, raises [ZeroDivisionError] exactly when it has a single row, and
    yields a value exactly when it has two rows or more. *)
Theorem deep_dive_outcome (df : list mrow) (ministry : string) :
  let data := filter (ministry_is ministry) df in
  (deep_dive_cagr df ministry = Raise IndexError <-> data = []) /\
  (deep_dive_cagr df ministry = Raise ZeroDivisionError <-> List.length data = 1%nat) /\
  ((exists v, deep_dive_cagr df ministry = Ok v) <-> (2 <= List.length data)%nat).
Proof.
  cbn zeta. unfold deep_dive_cagr. set (data := filter (ministry_is ministry) df).
  destruct data as [|x [|y l]].
  - split; [|split]; (split; [intros H | intros H]);
      try reflexivity; try discriminate; try (simpl in H; lia).
    destruct H as [v H]. discriminate.
  - split; [|split]; (split; [intros H | intros H]);
      try reflexivity; try discriminate; try (simpl in H; lia).
    destruct H as [v H]. discriminate.
  - destruct (cagr_of_long (x :: y :: l) x eq_refl) as (rn & n & _ & _ & E);
      [simpl; lia|].
    rewrite E.
    split; [|split]; (split; [intros H | intros H]);
      try discriminate; try (simpl in H; lia); try (simpl; lia).
    eexists. reflexivity.
Qed.

Lemma deep_dive_outcome_witness :
  deep_dive_cagr (prepare csv_one_year) "Home Affairs" = Raise IndexError /\
  deep_dive_cagr (prepare csv_one_year) "Finance" = Raise ZeroDivisionError /\
  (exists v, deep_dive_cagr (prepare csv_decade) "Defence" = Ok v).
Proof.
  split; [|split].
  - destruct (deep_dive_outcome (prepare csv_one_year) "Home Affairs") as (H & _).
    apply H. reflexivity.
  - destruct (deep_dive_outcome (prepare csv_one_year) "Finance") as (_ & H & _).
    apply H. reflexivity.
  - destruct (deep_dive_outcome (prepare csv_decade) "Defence") as (_ & _ & H).
    apply H. simpl. lia.
Defined.

(** X8: for positive first and last totals the computed rate is not
    negative when the last total is at least the first, not positive when
    it is at most the first, and in no case below -100. *)
Theorem cagr_sign_follows_growth (df : list mrow) (ministry : string)
    (r0 rn : mrow) (f l : R) (n : positive) :
  let data := filter (ministry_is ministry) df in
  iloc_first data = Ok r0 ->
  iloc_last data = Ok rn ->
  Z.of_nat (List.length data) = (Z.pos n + 1)%Z ->
  Total (base r0) = Fin f ->
  Total (base rn) = Fin l ->
  0 < f -> 0 < l ->
  exists c,
    deep_dive_cagr df ministry = Ok c /\
    (f <= l -> fltb c (Fin 0) = false) /\
    (l <= f -> fltb (Fin 0) c = false) /\
    fltb c (Fin (-100)) = false.
Proof.
  cbn zeta. intros H0 Hn Hlen Hf Hl Hfpos Hlpos. unfold deep_dive_cagr.
  rewrite (cagr_of_unfold _ r0 rn n H0 Hn Hlen), Hf, Hl.
  assert (Hx : 0 < l / f) by (apply Rdiv_lt_0_compat; assumption).
  rewrite fdiv_fin by lra. rewrite pow_recip_pos by exact Hx.
  set (g := Rpower (l / f) (/ IZR (Z.pos n))).
  eexists. split; [reflexivity|].
  assert (Hg : 0 < g) by apply exp_pos.
  destruct (Rpower_recip_cmp (l / f) n Hx) as (Hgt & Hlt & Heq). fold g in Hgt, Hlt, Heq.
  assert (Hone : l / f = 1 <-> l = f).
  { split; intros H; [|subst; field; lra].
    apply (f_equal (fun x => x * f)) in H.
    unfold Rdiv in H. rewrite Rmult_assoc, Rinv_l, Rmult_1_r, Rmult_1_l in H by lra. exact H. }
  assert (Hup : 1 < l / f <-> f < l).
  { split; intros H.
    - apply (Rmult_lt_compat_r f) in H; [|exact Hfpos].
      unfold Rdiv in H. rewrite Rmult_assoc, Rinv_l, Rmult_1_r in H by lra. lra.
    - apply (Rmult_lt_reg_r f); [exact Hfpos|].
      unfold Rdiv. rewrite Rmult_assoc, Rinv_l, Rmult_1_r by lra. lra. }
  assert (Hdown : l / f < 1 <-> l < f).
  { split; intros H.
    - apply (Rmult_lt_compat_r f) in H; [|exact Hfpos].
      unfold Rdiv in H. rewrite Rmult_assoc, Rinv_l, Rmult_1_r in H by lra. lra.
    - apply (Rmult_lt_reg_r f); [exact Hfpos|].
      unfold Rdiv. rewrite Rmult_assoc, Rinv_l, Rmult_1_r by lra. lra. }
  cbn [fsub fneg fadd fmul fltb].
  split; [|split].
  - intros H. apply Rltb_false.
    destruct (Rle_lt_or_eq_dec _ _ H) as [Hlt' | Heq'].
    + assert (1 < g) by (apply Hgt, Hup; exact Hlt'). lra.
    + assert (g = 1) by (apply Heq, Hone; symmetry; exact Heq'). lra.
  - intros H. apply Rltb_false.
    destruct (Rle_lt_or_eq_dec _ _ H) as [Hlt' | Heq'].
    + assert (g < 1) by (apply Hlt, Hdown; exact Hlt'). lra.
    + assert (g = 1) by (apply Heq, Hone; exact Heq'). lra.
  - apply Rltb_false. lra.
Qed.

Lemma cagr_sign_follows_growth_witness :
  exists c,
    deep_dive_cagr (prepare csv_decade) "Defence" = Ok c /\ fltb c (Fin 0) = false.
Proof.
  edestruct (cagr_sign_follows_growth (prepare csv_decade) "Defence") as (c & Hc & Hup & _).
  - run. reflexivity.
  - run. reflexivity.
  - instantiate (1 := 10%positive). reflexivity.
  - run. reflexivity.
  - run. reflexivity.
  - simpl. lra.
  - simpl. lra.
  - exists c. split; [exact Hc|]. apply Hup. simpl. lra.
Defined.

(* ================================================================== *)
(** * Further properties: the pages that pick rows of the frame *)
(* ================================================================== *)

Section PickFacts.

Lemma iloc_first_ok {A} (l : list A) :
  (exists x, iloc_first l = Ok x) <-> l <> [].
Proof.
  destruct l as [|x l]; simpl; split.
  - intros [y H]. discriminate.
  - intros H. contradiction.
  - intros _. discriminate.
  - intros _. exists x. reflexivity.
Qed.

Lemma iloc_first_raise {A} (l : list A) (e : exn) :
  iloc_first l = Raise e -> e = IndexError.
Proof. destruct l; simpl; intros H; [injection H as <-; reflexivity | discriminate]. Qed.

Lemma filter_nonempty {A} (p : A -> bool) (l : list A) :
  filter p l <> [] <-> exists x, In x l /\ p x = true.
Proof.
  split.
  - intros H. destruct (filter p l) as [|x l'] eqn:E; [contradiction|].
    exists x. apply filter_In. rewrite E. left. reflexivity.
  - intros (x & Hx & Hp) E.
    assert (Hin : In x (filter p l)) by (apply filter_In; split; assumption).
    rewrite E in Hin. destruct Hin.
Qed.

Lemma cell_has_row (df : list mrow) (y m : string) :
  filter (fun r => year_is y r && ministry_is m r)%bool df <> [] <-> has_row df y m.
Proof.
  rewrite filter_nonempty. unfold has_row, year_is, ministry_is.
  split; intros (r & Hr & H); exists r; (split; [exact Hr|]).
  - apply andb_true_iff in H as [H1 H2].
    split; [apply year_eqb_eq | apply String.eqb_eq]; assumption.
  - destruct H as [H1 H2]. apply andb_true_iff.
    split; [apply year_eqb_eq | apply String.eqb_eq]; assumption.
Qed.

Lemma current_allocation_ok (df : list mrow) (m : string) :
  (exists c, current_allocation df m = Ok c) <-> has_row df latest_year m.
Proof.
  rewrite <- cell_has_row, <- iloc_first_ok. unfold current_allocation.
  destruct (iloc_first (filter _ df)) as [r|e]; cbn [bind]; split; intros [x H];
    try discriminate; eexists; reflexivity.
Qed.

Lemma current_allocation_raise (df : list mrow) (m : string) (e : exn) :
  current_allocation df m = Raise e -> e = IndexError.
Proof.
  unfold current_allocation.
  destruct (iloc_first (filter _ df)) as [r|e'] eqn:E; cbn [bind]; intros H; [discriminate|].
  injection H as <-. apply (iloc_first_raise _ _ E).
Qed.

Lemma collect_allocations_outcome (df : list mrow) (slider : string -> float64)
    (ms : list string) :
  ((exists a, collect_allocations df slider ms = Ok a) <->
   forall m, In m ms -> has_row df latest_year m) /\
  (forall e, collect_allocations df slider ms = Raise e -> e = IndexError).
Proof.
  induction ms as [|m ms [IHok IHraise]].
  - split; [split; [intros _ m [] | intros _; eexists; reflexivity] | discriminate].
  - cbn [collect_allocations].
    destruct (current_allocation df m) as [c|e0] eqn:Ec; cbn [bind].
    + assert (Hm : has_row df latest_year m)
        by (apply current_allocation_ok; exists c; exact Ec).
      destruct (collect_allocations df slider ms) as [rest|e1] eqn:Er; cbn [bind].
      * split; [|discriminate]. split; [|intros _; eexists; reflexivity].
        intros _ m' [<- | Hm']; [exact Hm|].
        apply IHok; [eexists; reflexivity | exact Hm'].
      * split.
        -- split; [intros [a H]; discriminate|].
           intros H. exfalso.
           destruct IHok as [_ IHok].
           destruct IHok as [a Ha]; [intros m' Hm'; apply H; right; exact Hm' | discriminate].
        -- intros e H. injection H as <-. apply IHraise. reflexivity.
    + split.
      * split; [intros [a H]; discriminate|].
        intros H. exfalso.
        destruct (proj2 (current_allocation_ok df m) (H m (or_introl eq_refl))) as [c Hc].
        rewrite Ec in Hc. discriminate.
      * intros e H. injection H as <-. apply (current_allocation_raise df m). exact Ec.
Qed.

End PickFacts.

(** X9: the "What If?" page computes its report exactly when each of the
    five focus ministries has a row for 2024-2025, whatever the sliders
    say; otherwise it raises [IndexError], and it raises nothing else. *)
Theorem what_if_outcome (df : list mrow) (slider : string -> float64) :
  ((exists v, what_if df slider = Ok v) <->
   forall m, In m focus_ministries -> has_row df latest_year m) /\
  (forall e, what_if df slider = Raise e -> e = IndexError).
Proof.
  destruct (collect_allocations_outcome df slider focus_ministries) as [Hok Hraise].
  unfold what_if, what_if_inputs, total_2024.
  destruct (iloc_first (filter (year_is latest_year) df)) as [r|e0] eqn:E0; cbn [bind].
  - destruct (collect_allocations df slider focus_ministries) as [a|e1]; cbn [bind].
    + split; [|discriminate]. split; [|intros _; eexists; reflexivity].
      intros _. apply Hok. eexists. reflexivity.
    + split.
      * split; [intros [v H]; discriminate|].
        intros H. apply Hok in H as [a Ha]. discriminate.
      * intros e H. injection H as <-. apply Hraise. reflexivity.
  - split.
    + split; [intros [v H]; discriminate|].
      intros H. exfalso.
      destruct (H "Defence") as (r & Hr & Hy & _); [left; reflexivity|].
      assert (Hne : filter (year_is latest_year) df <> []).
      { apply filter_nonempty. exists r. split; [exact Hr|].
        unfold year_is. apply year_eqb_eq. exact Hy. }
      apply iloc_first_ok in Hne as [x Hx]. rewrite E0 in Hx. discriminate.
    + intros e H. injection H as <-. apply (iloc_first_raise _ _ E0).
Qed.

Lemma what_if_outcome_witness :
  (exists v, what_if (prepare csv_2024) (fun _ => Fin 0) = Ok v) /\
  what_if (prepare csv_one_year) (fun _ => Fin 0) = Raise IndexError.
Proof.
  split.
  - destruct (what_if_outcome (prepare csv_2024) (fun _ => Fin 0)) as [[_ H] _].
    apply H. intros m Hm.
    destruct Hm as [<- | [<- | [<- | [<- | [<- | []]]]]]; eexists.
    + split; [left; reflexivity | split; reflexivity].
    + split; [do 1 right; left; reflexivity | split; reflexivity].
    + split; [do 2 right; left; reflexivity | split; reflexivity].
    + split; [do 3 right; left; reflexivity | split; reflexivity].
    + split; [do 4 right; left; reflexivity | split; reflexivity].
  - destruct (what_if (prepare csv_one_year) (fun _ => Fin 0)) as [v|e] eqn:E.
    + exfalso.
      destruct (what_if_outcome (prepare csv_one_year) (fun _ => Fin 0)) as [[H _] _].
      destruct (H (ex_intro _ v E) "Defence" (or_introl eq_refl)) as (r & Hr & Hy & _).
      destruct Hr as [<- | [<- | []]]; discriminate Hy.
    + destruct (what_if_outcome (prepare csv_one_year) (fun _ => Fin 0)) as [_ H].
      rewrite (H e E). reflexivity.
Defined.

(** X10: the "Overview" page computes its four numbers exactly when the
    frame has the rows they are read from: Defence and Finance in
    2024-2025 and Agriculture in 2014-2015 and in 2024-2025; otherwise it
    raises [IndexError], and it raises nothing else. *)
Theorem overview_outcome (df : list mrow) :
  ((exists v, overview_metrics df = Ok v) <->
   has_row df "2024-2025" "Defence" /\ has_row df "2024-2025" "Finance" /\
   has_row df "2014-2015" agriculture /\ has_row df "2024-2025" agriculture) /\
  (forall e, overview_metrics df = Raise e -> e = IndexError).
Proof.
  unfold overview_metrics. cbn zeta. rewrite !filter_filter.
  rewrite <- !cell_has_row, <- !iloc_first_ok.
  destruct (iloc_first (filter (fun x => year_is "2024-2025" x && ministry_is "Defence" x)%bool df))
    as [d|e1] eqn:E1; cbn [bind];
    [|split; [split; [intros [v H]; discriminate | intros [[x H] _]; discriminate]
             | intros e H; injection H as <-; apply (iloc_first_raise _ _ E1)]].
  destruct (iloc_first (filter (fun x => year_is "2024-2025" x && ministry_is "Finance" x)%bool df))
    as [f|e2] eqn:E2; cbn [bind];
    [|split; [split; [intros [v H]; discriminate | intros (_ & [x H] & _); discriminate]
             | intros e H; injection H as <-; apply (iloc_first_raise _ _ E2)]].
  destruct (iloc_first (filter (fun r => year_is "2014-2015" r && ministry_is agriculture r)%bool df))
    as [a14|e3] eqn:E3; cbn [bind];
    [|split; [split; [intros [v H]; discriminate | intros (_ & _ & [x H] & _); discriminate]
             | intros e H; injection H as <-; apply (iloc_first_raise _ _ E3)]].
  destruct (iloc_first (filter (fun r => year_is "2024-2025" r && ministry_is agriculture r)%bool df))
    as [a24|e4] eqn:E4; cbn [bind];
    [|split; [split; [intros [v H]; discriminate | intros (_ & _ & _ & [x H]); discriminate]
             | intros e H; injection H as <-; apply (iloc_first_raise _ _ E4)]].
  split; [|discriminate].
  split; [|intros _; eexists; reflexivity].
  intros _. repeat split; eexists; reflexivity.
Qed.

Lemma overview_outcome_witness :
  overview_metrics (prepare csv_decade) = Raise IndexError.
Proof.
  destruct (overview_metrics (prepare csv_decade)) as [v|e] eqn:E.
  - exfalso. destruct (overview_outcome (prepare csv_decade)) as [[H _] _].
    destruct (H (ex_intro _ v E)) as (_ & (r & Hr & _ & Hm) & _).
    repeat (destruct Hr as [<- | Hr]; [discriminate Hm|]). destruct Hr.
  - destruct (overview_outcome (prepare csv_decade)) as [_ H].
    rewrite (H e E). reflexivity.
Defined.

(* ================================================================== *)
(** * Further properties: the sliders at their start values *)
(* ================================================================== *)

Section StartValues.










End StartValues.



(* ================================================================== *)
(** * Further properties: the reading of numeric cells *)
(* ================================================================== *)

Section CellFacts.

Lemma remove_commas_app (a b : string) :
  remove_commas (a ++ b) = remove_commas a ++ remove_commas b.
Proof.
  induction a as [|c a IH]; [reflexivity|].
  simpl. destruct (Ascii.eqb c ","); rewrite IH; reflexivity.
Qed.

End CellFacts.

(** X12: a comma counts for nothing wherever it stands in a numeric cell:
    the cell reads the same with or without it. *)
Theorem commas_are_ignored (a b : string) :
  clean_numeric (a ++ "," ++ b) = clean_numeric (a ++ b).
Proof.
  unfold clean_numeric. rewrite !str_replace_commas, !remove_commas_app. reflexivity.
Qed.


Lemma commas_are_ignored_witness :
  clean_numeric "12,34,567" = clean_numeric "1234567" /\
  clean_numeric ",5" = clean_numeric "5".
Proof.
  split.
  - exact (eq_trans (commas_are_ignored "12" "34,567") (commas_are_ignored "1234" "567")).
  - exact (commas_are_ignored "" "5").
Defined.

(* ================================================================== *)
(** * Further properties: names, focus rows, amounts in words *)
(* ================================================================== *)

Section NameFacts.

Lemma series_replace_notin (table : list (string * string)) (s : string) :
  ~ In s (map fst table) -> series_replace table s = s.
Proof.
  induction table as [|[k v] t IH]; intros H; [reflexivity|].
  simpl. destruct (String.eqb k s) eqn:E.
  - apply String.eqb_eq in E. exfalso. apply H. left. exact E.
  - apply IH. intros Hin. apply H. right. exact Hin.
Qed.



End NameFacts.

(** X14: how a label is canonicalized: a label without the text
    "MINISTRY OF " is kept; a label "MINISTRY OF " + rest that the alias
    table does not list, with no further occurrence in rest, becomes rest;
    a label of the alias table becomes its entry, one of the five focus
    ministries. *)
Theorem canonicalize_cases :
  (forall label,
     occurs ministry_prefix label = false -> canonicalize label = label) /\
  (forall rest,
     ~ In (ministry_prefix ++ rest) (map fst ministry_aliases) ->
     occurs ministry_prefix rest = false ->
     canonicalize (ministry_prefix ++ rest) = rest) /\
  (forall k v,
     In (k, v) ministry_aliases -> canonicalize k = v /\ In v focus_ministries).
Proof.
  split; [|split].
  - intros label H. unfold canonicalize.
    assert (Hp : prefix ministry_prefix label = false).
    { destruct (prefix ministry_prefix label) eqn:E; [|reflexivity].
      apply occurs_prefix in E. congruence. }
    rewrite (series_replace_miss _ _ alias_keys_prefixed Hp).
    apply str_replace_absent. exact H.
  - intros rest Hnot Hocc. unfold canonicalize.
    rewrite (series_replace_notin _ _ Hnot), strip_prefix_text.
    apply str_replace_absent. exact Hocc.
  - intros k v Hin. unfold ministry_aliases in Hin.
    repeat (destruct Hin as [E | Hin];
            [injection E as <- <-; split; [reflexivity | simpl; tauto]|]).
    destruct Hin.
Qed.

Lemma canonicalize_cases_witness :
  canonicalize "Defence" = "Defence" /\
  canonicalize "MINISTRY OF RAILWAYS" = "RAILWAYS" /\
  canonicalize "MINISTRY OF AGRICULTURE" = "Agriculture & Farmers' Welfare".
Proof.
  destruct canonicalize_cases as (H1 & H2 & H3).
  split; [|split].
  - apply H1. reflexivity.
  - apply (H2 "RAILWAYS"); [|reflexivity].
    simpl. intros H. repeat (destruct H as [H | H]; [discriminate H|]). exact H.
  - apply (H3 "MINISTRY OF AGRICULTURE"). left. reflexivity.
Defined.

(** X15: a row of the file whose ministry is none of the five focus
    ministries changes nothing in the frame of the pages: the totals per
    year and the shares are those of the focus ministries alone. *)
Theorem other_ministries_do_not_count (before after : list raw_row) (r : raw_row) :
  isin focus_ministries (canonicalize (raw_Ministry_Name r)) = false ->
  prepare (before ++ r :: after) = prepare (before ++ after).
Proof.
  intros H. unfold prepare.
  replace (focus_filter (load_data (before ++ r :: after)))
    with (focus_filter (load_data (before ++ after))); [reflexivity|].
  unfold focus_filter, load_data. rewrite !map_app, !filter_app. cbn [map filter].
  cbn [Ministry load_row]. rewrite H. reflexivity.
Qed.

Lemma other_ministries_do_not_count_witness :
  prepare csv_one_year
  = prepare [ csv_line "MINISTRY OF DEFENCE" "2020-2021 (RE)" "1,00" "nan";
              csv_line "MINISTRY OF FINANCE" "2020-2021" "7" "3,00" ].
Proof.
  apply (other_ministries_do_not_count
           [ csv_line "MINISTRY OF DEFENCE" "2020-2021 (RE)" "1,00" "nan";
             csv_line "MINISTRY OF FINANCE" "2020-2021" "7" "3,00" ]
           []
           (csv_line "MINISTRY OF RAILWAYS" "2020-2021" "7" "9,00")).
  reflexivity.
Defined.


